(** * Log-file processing: ingestion, date filter and per-endpoint averages

    A shallow embedding of [main.py] (classes [LogProcessor] and
    [ReportGenerator]) together with the properties its specification
    states about it.

    Python values are modelled by the inductive [value]; Python exceptions
    by the error monad [outcome]; the mutable attribute [self.logs] and the
    error stream by explicit state passing in the monad [M].  Floating-point
    numbers are IEEE-754 binary64 values of the standard library's
    [spec_float], so sums, quotients and their rounding are those of CPython.
    The library functions the program calls but does not define
    ([datetime.fromisoformat], [datetime.strptime], [json.loads],
    [tabulate.tabulate]) are the fields of a record [pylib] over which the
    development is parameterised; a reference instance is given for the
    closed examples. *)

From Stdlib Require Import ZArith String Ascii List Bool Lia.
From Stdlib Require Import Sorting.Sorted Sorting.Permutation.
From Stdlib Require Import DecimalString.
From Stdlib Require Import SpecFloat.
Import ListNotations.

Open Scope string_scope.
Open Scope Z_scope.

Set Warnings "-register-all".

(* ================================================================== *)
(** * Exceptions and the error monad *)
(* ================================================================== *)

(** The exception classes that the modelled code can meet. *)
Inductive exn : Type :=
| Exception
| AttributeError
| TypeError
| ValueError
| JSONDecodeError        (* json.JSONDecodeError, a ValueError *)
| UnicodeDecodeError     (* a ValueError *)
| UnicodeEncodeError     (* a ValueError *)
| OverflowError
| ZeroDivisionError
| RecursionError
| OSError.

Definition exn_eqb (a b : exn) : bool :=
  match a, b with
  | Exception, Exception | AttributeError, AttributeError
  | TypeError, TypeError | ValueError, ValueError
  | JSONDecodeError, JSONDecodeError
  | UnicodeDecodeError, UnicodeDecodeError
  | UnicodeEncodeError, UnicodeEncodeError
  | OverflowError, OverflowError | ZeroDivisionError, ZeroDivisionError
  | RecursionError, RecursionError | OSError, OSError => true
  | _, _ => false
  end.

(** [issubclass e c]: an exception of class [e] is caught by [except c]. *)
Definition issubclass (e c : exn) : bool :=
  match c with
  | Exception => true
  | ValueError =>
      match e with
      | ValueError | JSONDecodeError | UnicodeDecodeError
      | UnicodeEncodeError => true
      | _ => false
      end
  | _ => exn_eqb e c
  end.

Inductive outcome (A : Type) : Type :=
| Ret (a : A)
| Raise (e : exn).
Arguments Ret {A} a.
Arguments Raise {A} e.

Definition obind {A B} (c : outcome A) (k : A -> outcome B) : outcome B :=
  match c with
  | Ret a => k a
  | Raise e => Raise e
  end.

Notation "x <- c ;; k" := (obind c (fun x => k))
  (at level 61, c at next level, right associativity).

(** [try: body except classes: handler]. *)
Definition try_except {A} (body : outcome A) (classes : list exn)
    (handler : exn -> outcome A) : outcome A :=
  match body with
  | Ret a => Ret a
  | Raise e => if existsb (issubclass e) classes then handler e else Raise e
  end.

(** A library call that signals failure by [ValueError] only. *)
Definition or_value_error {A} (r : option A) : outcome A :=
  match r with
  | Some a => Ret a
  | None => Raise ValueError
  end.

(* ================================================================== *)
(** * Python values *)
(* ================================================================== *)

(** binary64 *)
Definition prec : Z := 53.
Definition emax : Z := 1024.
Definition float : Type := spec_float.

(** The values [json.loads] produces.  A [string] holds the code points of
    a Python [str] (those below 256), so that the order of [String.compare]
    is the order of [<] on [str].  A dict is an association list; a key is
    bound to the value of its first entry. *)
Inductive value : Type :=
| VNone
| VBool (b : bool)
| VInt (z : Z)
| VFloat (f : float)
| VStr (s : string)
| VList (l : list value)
| VDict (d : list (string * value)).

Definition float_is_zero (f : float) : bool :=
  match f with
  | S754_zero _ => true
  | _ => false
  end.

(** [bool(v)] *)
Definition truthy (v : value) : bool :=
  match v with
  | VNone => false
  | VBool b => b
  | VInt z => negb (z =? 0)
  | VFloat f => negb (float_is_zero f)
  | VStr s => negb (s =? "")%string
  | VList l => match l with [] => false | _ => true end
  | VDict d => match d with [] => false | _ => true end
  end.

Fixpoint dict_get (d : list (string * value)) (key : string) : value :=
  match d with
  | [] => VNone
  | (k, v) :: rest => if (k =? key)%string then v else dict_get rest key
  end.

(** [obj.get(key)]: only dicts have the attribute. *)
Definition py_get (obj : value) (key : string) : outcome value :=
  match obj with
  | VDict d => Ret (dict_get d key)
  | _ => Raise AttributeError
  end.

(** [s.replace(old, new)] for a one-character [old]. *)
Fixpoint replace (old : ascii) (new s : string) : string :=
  match s with
  | EmptyString => EmptyString
  | String c rest =>
      if (c =? old)%char then new ++ replace old new rest
      else String c (replace old new rest)
  end.

(** [obj.replace(old, new)]: of the JSON values only strings have it. *)
Definition py_replace (obj : value) (old : ascii) (new : string)
  : outcome string :=
  match obj with
  | VStr s => Ret (replace old new s)
  | _ => Raise AttributeError
  end.

(** Code points below 256 on which [str.isspace] holds. *)
Definition isspace (c : ascii) : bool :=
  let n := Z.of_nat (nat_of_ascii c) in
  ((9 <=? n) && (n <=? 13)) || ((28 <=? n) && (n <=? 32))
  || (n =? 133) || (n =? 160).

Fixpoint lstrip (s : string) : string :=
  match s with
  | EmptyString => EmptyString
  | String c rest => if isspace c then lstrip rest else s
  end.

Fixpoint rstrip (s : string) : string :=
  match s with
  | EmptyString => EmptyString
  | String c rest =>
      match rstrip rest with
      | EmptyString => if isspace c then EmptyString else String c EmptyString
      | r => String c r
      end
  end.

(** [s.strip()] *)
Definition strip (s : string) : string := rstrip (lstrip s).

(* ================================================================== *)
(** * Dates and datetimes *)
(* ================================================================== *)

Record date : Type := mkdate { year : Z; month : Z; day : Z }.

(** [utcoffset]: [None] for a naive datetime, else microseconds east of
    UTC. *)
Record datetime : Type := mkdatetime {
  dt_date : date;
  hour : Z; minute : Z; second : Z; microsecond : Z;
  utcoffset : option Z
}.

(** [dt.date()]: the year, month and day of the datetime as written; the
    offset plays no part. *)
Definition date_of (dt : datetime) : date := dt_date dt.

Definition date_eqb (a b : date) : bool :=
  (year a =? year b) && (month a =? month b) && (day a =? day b).

(* ================================================================== *)
(** * Numbers, keys and formatting *)
(* ================================================================== *)

(** [float(z)]: the nearest binary64, ties to even; CPython raises
    [OverflowError] when that would be an infinity, that is from
    [2^1024 - 2^970] on. *)
Definition double_int_bound : Z := 2 ^ 1024 - 2 ^ 970.

Definition float_of_int (z : Z) : outcome float :=
  if Z.abs z <? double_int_bound
  then Ret (binary_normalize prec emax z 0 false)
  else Raise OverflowError.

(** [a + v] for a float [a]: [float.__add__], with an int or bool operand
    converted first; every other JSON value is a [TypeError]. *)
Definition float_add (a : float) (v : value) : outcome float :=
  match v with
  | VFloat b => Ret (SFadd prec emax a b)
  | VInt z => b <- float_of_int z ;; Ret (SFadd prec emax a b)
  | VBool t => b <- float_of_int (if t then 1 else 0) ;; Ret (SFadd prec emax a b)
  | _ => Raise TypeError
  end.

(** [a / n] for a float [a] and an int [n]: [n] is converted, and a zero
    divisor is a [ZeroDivisionError] ([float(n)] is zero only for [n = 0]). *)
Definition float_truediv_int (a : float) (n : Z) : outcome float :=
  b <- float_of_int n ;;
  if n =? 0 then Raise ZeroDivisionError else Ret (SFdiv prec emax a b).

(** The exact value of a bool, int or float. *)
Inductive numval : Type :=
| NFin (m e : Z)          (* m * 2^e *)
| NInf (negative : bool)
| NNan.

Definition numval_of (v : value) : option numval :=
  match v with
  | VBool b => Some (NFin (if b then 1 else 0) 0)
  | VInt z => Some (NFin z 0)
  | VFloat (S754_zero _) => Some (NFin 0 0)
  | VFloat (S754_finite s m e) => Some (NFin (cond_Zopp s (Zpos m)) e)
  | VFloat (S754_infinity s) => Some (NInf s)
  | VFloat S754_nan => Some NNan
  | _ => None
  end.

(** Comparison of two numbers by value; [None] when one is a NaN. *)
Definition numval_compare (x y : numval) : option comparison :=
  match x, y with
  | NNan, _ | _, NNan => None
  | NInf a, NInf b =>
      Some (if a then (if b then Eq else Lt) else (if b then Gt else Eq))
  | NInf a, NFin _ _ => Some (if a then Lt else Gt)
  | NFin _ _, NInf b => Some (if b then Gt else Lt)
  | NFin m1 e1, NFin m2 e2 =>
      let e := Z.min e1 e2 in
      Some (m1 * 2 ^ (e1 - e) ?= m2 * 2 ^ (e2 - e))
  end.

(** [hash(v)] succeeds: lists and dicts are unhashable. *)
Definition hashable (v : value) : bool :=
  match v with
  | VList _ | VDict _ => false
  | _ => true
  end.

(** [a is b or a == b] on hashable values, as a dict looks up a key and as
    a tuple comparison looks for the first components that differ.  A NaN
    equals no number, but [json.loads] returns one and the same object for
    every [NaN] of its input, and that object is found by identity: two NaN
    keys are one key.  (NaN objects made apart, which only records given
    in memory can hold, are not told from it here.) *)
Definition key_eqb (a b : value) : bool :=
  match a, b with
  | VStr s, VStr t => (s =? t)%string
  | VNone, VNone => true
  | _, _ =>
      match numval_of a, numval_of b with
      | Some NNan, Some NNan => true
      | Some x, Some y =>
          match numval_compare x y with
          | Some Eq => true
          | _ => false
          end
      | _, _ => false
      end
  end.

(** [a < b] on the values that occur as keys: strings by code point,
    numbers by value, and a [TypeError] between a string and a number. *)
Definition py_lt (a b : value) : outcome bool :=
  match a, b with
  | VStr s, VStr t => Ret (String.ltb s t)
  | _, _ =>
      match numval_of a, numval_of b with
      | Some x, Some y =>
          Ret (match numval_compare x y with
               | Some Lt => true
               | _ => false
               end)
      | _, _ => Raise TypeError
      end
  end.

(** The integer nearest to [n / d], ties to even ([0 <= n], [0 < d]). *)
Definition round_half_even (n d : Z) : Z :=
  let q := n / d in
  match 2 * (n mod d) ?= d with
  | Lt => q
  | Gt => q + 1
  | Eq => if Z.even q then q else q + 1
  end.

(** The magnitude [m * 2^e] in thousandths, correctly rounded. *)
Definition thousandths (m : positive) (e : Z) : Z :=
  if 0 <=? e then Zpos m * 2 ^ e * 1000
  else round_half_even (Zpos m * 1000) (2 ^ (- e)).

Definition digit (d : Z) : ascii := ascii_of_nat (48 + Z.to_nat d).

(** Decimal numeral of a natural number. *)
Definition decimal (n : Z) : string :=
  NilZero.string_of_uint (N.to_uint (Z.to_N n)).

Definition sign_prefix (s : bool) : string := if s then "-" else "".

(** [f"{x:.3f}"] for a float [x]. *)
Definition format_3f (x : float) : string :=
  match x with
  | S754_nan => "nan"
  | S754_infinity s => sign_prefix s ++ "inf"
  | S754_zero s => sign_prefix s ++ "0.000"
  | S754_finite s m e =>
      let n := thousandths m e in
      sign_prefix s ++ decimal (n / 1000) ++ "."
        ++ String (digit (n / 100 mod 10))
             (String (digit (n / 10 mod 10))
                (String (digit (n mod 10)) EmptyString))
  end.

(* ================================================================== *)
(** * The library interface *)
(* ================================================================== *)

(** A row of the report: [[url, stats["count"], f"{avg_time:.3f}"]]. *)
Record row : Type := mkrow {
  row_url : value;
  row_total : Z;
  row_avg : string
}.

(** The functions [main.py] imports.  [None] stands for [ValueError], the
    only exception the two datetime parsers raise on a string argument. *)
Record pylib : Type := mkpylib {
  (* datetime.fromisoformat(s) *)
  fromisoformat : string -> option datetime;
  (* datetime.strptime(s, fmt) *)
  strptime : string -> string -> option datetime;
  (* json.loads(s) *)
  json_loads : string -> outcome value;
  (* tabulate.tabulate(rows, headers=headers, tablefmt="grid") *)
  tabulate : list row -> list string -> string
}.

(* ================================================================== *)
(** * The state monad of the processor *)
(* ================================================================== *)

(** Diagnostics printed on [sys.stderr]. *)
Inductive diag : Type :=
| WarnMissing (file_path : string)
| WarnInvalidJson (file_path : string) (line_num : Z)
| ErrReading (file_path : string) (e : exn).

(** [logs] is the attribute [self.logs]; [stderr] collects what was
    printed. *)
Record world : Type := mkworld {
  logs : list value;
  stderr : list diag
}.

Definition M (A : Type) : Type := world -> outcome A * world.

Definition mret {A} (a : A) : M A := fun w => (Ret a, w).

Definition mbind {A B} (c : M A) (k : A -> M B) : M B :=
  fun w =>
    match c w with
    | (Ret a, w') => k a w'
    | (Raise e, w') => (Raise e, w')
    end.

Notation "x <~ c ;; k" := (mbind c (fun x => k))
  (at level 61, c at next level, right associativity).
Notation "c ;;; k" := (mbind c (fun _ => k))
  (at level 61, right associativity).

Definition lift {A} (c : outcome A) : M A := fun w => (c, w).

(** What was done to the state before an exception stays done. *)
Definition mtry_except {A} (body : M A) (cls : exn)
    (handler : exn -> M A) : M A :=
  fun w =>
    match body w with
    | (Ret a, w') => (Ret a, w')
    | (Raise e, w') =>
        if issubclass e cls then handler e w' else (Raise e, w')
    end.

(** [self.logs = l] *)
Definition set_logs (l : list value) : M unit :=
  fun w => (Ret tt, mkworld l (stderr w)).

(** [self.logs.append(v)] *)
Definition logs_append (v : value) : M unit :=
  fun w => (Ret tt, mkworld (logs w ++ [v]) (stderr w)).

(** [print(..., file=sys.stderr)] *)
Definition print_stderr (d : diag) : M unit :=
  fun w => (Ret tt, mkworld (logs w) (stderr w ++ [d])).

(** [for x in xs: body(x)] *)
Fixpoint for_each {A} (xs : list A) (body : A -> M unit) : M unit :=
  match xs with
  | [] => mret tt
  | x :: rest => body x ;;; for_each rest body
  end.

(** [for i, x in enumerate(xs, start): body(i, x)] *)
Fixpoint for_enumerate {A} (xs : list A) (start : Z)
    (body : Z -> A -> M unit) : M unit :=
  match xs with
  | [] => mret tt
  | x :: rest => body start x ;;; for_enumerate rest (start + 1) body
  end.

(* ================================================================== *)
(** * The file system *)
(* ================================================================== *)

(** What a path leads to when [load_logs] reaches it. *)
Inductive file : Type :=
| Missing                          (* path.exists() is False *)
| Unopenable (e : exn)             (* open(path, ...) raises e *)
| Readable (lines : list string) (failure : option exn)
    (* iterating the file yields [lines]; then it ends, or raises *)
| Inaccessible (e : exn).          (* path.exists() itself raises e *)

Definition filesystem : Type := string -> file.

(** [path.exists()]: [False] when the system reports that nothing is there;
    any other error of the underlying [stat] call, such as the one for a
    name that is too long, is raised to the caller. *)
Definition path_exists (fs : filesystem) (p : string) : outcome bool :=
  match fs p with
  | Missing => Ret false
  | Inaccessible e => Raise e
  | _ => Ret true
  end.

(** [path.exists()] returns. *)
Definition accessible (fs : filesystem) (p : string) : bool :=
  match fs p with
  | Inaccessible _ => false
  | _ => true
  end.

(** [open(path, "r", encoding="utf-8")] *)
Definition open (fs : filesystem) (p : string)
  : outcome (list string * option exn) :=
  match fs p with
  | Missing => Raise OSError
  | Unopenable e => Raise e
  | Readable lines failure => Ret (lines, failure)
  | Inaccessible e => Raise e
  end.

(** The end of the iteration over an open file. *)
Definition end_of_file (failure : option exn) : M unit :=
  match failure with
  | None => mret tt
  | Some e => lift (Raise e)
  end.

(* ================================================================== *)
(** * The dictionary of endpoint statistics *)
(* ================================================================== *)

(** [{"count": ..., "total_time": ...}] *)
Record stats : Type := mkstats { count : Z; total_time : float }.

(** [defaultdict(lambda: {"count": 0, "total_time": 0.0})], in insertion
    order.  The keys are compared with [==], under which [1], [1.0] and
    [True] are one key: hence an association list under [key_eqb]. *)
Definition stats_dict : Type := list (value * stats).

Definition default_stats : stats := mkstats 0 (S754_zero false).

Definition is_none (v : value) : bool :=
  match v with
  | VNone => true
  | _ => false
  end.

Fixpoint update_entry (d : stats_dict) (key : value)
    (f : stats -> outcome stats) : outcome stats_dict :=
  match d with
  | [] => s <- f default_stats ;; Ret [(key, s)]
  | (k, s) :: rest =>
      if key_eqb k key then s' <- f s ;; Ret ((k, s') :: rest)
      else rest' <- update_entry rest key f ;; Ret ((k, s) :: rest')
  end.

(** [d[key]] updated by [f], the entry being created from the default when
    the key is new; an unhashable key is a [TypeError].  The two
    subscriptions [endpoint_stats[url]] of the source reach the same entry
    and are one update here. *)
Definition setdefault_update (d : stats_dict) (key : value)
    (f : stats -> outcome stats) : outcome stats_dict :=
  if hashable key then update_entry d key f else Raise TypeError.

Definition stats_eqb (s t : stats) : bool :=
  (count s =? count t) && SFeqb (total_time s) (total_time t).

(** [(k1, s1) < (k2, s2)] on tuples: the first components that differ
    decide.  With equal keys (which the items of one dict never have) the
    two dicts are compared, and [<] between dicts is a [TypeError]. *)
Definition item_lt (a b : value * stats) : outcome bool :=
  if key_eqb (fst a) (fst b) then
    if stats_eqb (snd a) (snd b) then Ret false else Raise TypeError
  else py_lt (fst a) (fst b).

Fixpoint insert_item (x : value * stats) (l : stats_dict)
  : outcome stats_dict :=
  match l with
  | [] => Ret [x]
  | y :: rest =>
      b <- item_lt x y ;;
      if b then Ret (x :: y :: rest)
      else rest' <- insert_item x rest ;; Ret (y :: rest')
  end.

(** [sorted(d.items())].  The keys of a dict are pairwise different, so on
    keys that [<] orders totally the result is the one sorted arrangement,
    whatever the algorithm; between a string and a number any sort has to
    compare and raises.  With NaN keys [<] is no order and the arrangement
    CPython returns is left unmodelled. *)
Fixpoint sorted (items : stats_dict) : outcome stats_dict :=
  match items with
  | [] => Ret []
  | x :: rest => s <- sorted rest ;; insert_item x s
  end.

(* ================================================================== *)
(** * class LogProcessor *)
(* ================================================================== *)

Section LogProcessor.

Variable L : pylib.

(** [LogProcessor._should_include_log] *)
Definition _should_include_log (log_entry : value)
    (date_filter : option string) : outcome bool :=
  match date_filter with
  | None => Ret true
  | Some date_filter =>
      if negb (truthy (VStr date_filter)) then Ret true
      else
        try_except
          (timestamp <- py_get log_entry "@timestamp" ;;
           if negb (truthy timestamp) then Ret false
           else
             replaced <- py_replace timestamp "Z" "+00:00" ;;
             log_dt <- or_value_error (fromisoformat L replaced) ;;
             filter_dt <- or_value_error (strptime L date_filter "%Y-%m-%d") ;;
             Ret (date_eqb (date_of log_dt) (date_of filter_dt)))
          [ValueError; TypeError]
          (fun _ => Ret false)
  end.

(** [LogProcessor.load_logs_from_data] *)
Definition load_logs_from_data (log_data : list value)
    (date_filter : option string) : M unit :=
  set_logs [] ;;;
  for_each log_data (fun log_entry =>
    include <~ lift (_should_include_log log_entry date_filter) ;;
    if include then logs_append log_entry else mret tt).

(** The body of the [for line_num, line in enumerate(f, 1)] loop. *)
Definition load_line (file_path : string) (date_filter : option string)
    (line_num : Z) (line : string) : M unit :=
  let line := strip line in
  if negb (truthy (VStr line)) then mret tt
  else
    mtry_except
      (log_entry <~ lift (json_loads L line) ;;
       include <~ lift (_should_include_log log_entry date_filter) ;;
       if include then logs_append log_entry else mret tt)
      JSONDecodeError
      (fun _ => print_stderr (WarnInvalidJson file_path line_num)).

(** The body of the [for file_path in file_paths] loop.  The test
    [path.exists()] stands before the [try]: what it raises leaves the
    loop. *)
Definition load_file (fs : filesystem) (date_filter : option string)
    (file_path : string) : M unit :=
  there <~ lift (path_exists fs file_path) ;;
  if negb there then
    print_stderr (WarnMissing file_path)
  else
    mtry_except
      (f <~ lift (open fs file_path) ;;
       for_enumerate (fst f) 1 (load_line file_path date_filter) ;;;
       end_of_file (snd f))
      Exception
      (fun e => print_stderr (ErrReading file_path e)).

(** [LogProcessor.load_logs] *)
Definition load_logs (fs : filesystem) (file_paths : list string)
    (date_filter : option string) : M unit :=
  set_logs [] ;;;
  for_each file_paths (load_file fs date_filter).

(** [LogProcessor.generate_average_report], the first loop: one record. *)
Definition aggregate_log (endpoint_stats : stats_dict) (log : value)
  : outcome stats_dict :=
  url <- py_get log "url" ;;
  response_time <- py_get log "response_time" ;;
  if truthy url && negb (is_none response_time) then
    setdefault_update endpoint_stats url (fun stats =>
      let count' := count stats + 1 in
      total_time' <- float_add (total_time stats) response_time ;;
      Ret (mkstats count' total_time'))
  else Ret endpoint_stats.

Fixpoint aggregate (logs : list value) (endpoint_stats : stats_dict)
  : outcome stats_dict :=
  match logs with
  | [] => Ret endpoint_stats
  | log :: rest =>
      endpoint_stats' <- aggregate_log endpoint_stats log ;;
      aggregate rest endpoint_stats'
  end.

(** The second loop, over the sorted items. *)
Fixpoint make_rows (items : stats_dict) : outcome (list row) :=
  match items with
  | [] => Ret []
  | (url, stats) :: rest =>
      avg_time <- float_truediv_int (total_time stats) (count stats) ;;
      rows <- make_rows rest ;;
      Ret (mkrow url (count stats) (format_3f avg_time) :: rows)
  end.

(** [LogProcessor.generate_average_report], on the value of [self.logs]. *)
Definition generate_average_report (logs : list value)
  : outcome (list row) :=
  endpoint_stats <- aggregate logs [] ;;
  items <- sorted endpoint_stats ;;
  make_rows items.

End LogProcessor.

(* ================================================================== *)
(** * class ReportGenerator *)
(* ================================================================== *)

Section ReportGenerator.

Variable L : pylib.

Definition headers : list string := ["handler"; "total"; "avg_response_time"].

(** [ReportGenerator.generate_report]; [None] is Python's [None]. *)
Definition generate_report (logs : list value) (report_type : string)
  : outcome (option string) :=
  if (report_type =? "average")%string then
    rows <- generate_average_report logs ;;
    match rows with
    | [] => Ret (Some "No data found for the specified criteria.")
    | _ => Ret (Some (tabulate L rows headers))
    end
  else Ret None.

End ReportGenerator.

(* ================================================================== *)
(** * A reference instance of the library interface *)
(* ================================================================== *)

(** The closed examples below need the library functions at concrete
    arguments.  [PyRef] returns what CPython returns on the strings it
    accepts: dates [YYYY-MM-DD], and datetimes [YYYY-MM-DDTHH:MM:SS] with an
    optional offset [+HH:MM] or [-HH:MM].  It rejects every other string,
    among them some that CPython accepts, and is used at no such string. *)
Module PyRef.

Definition digit_of (c : ascii) : option Z :=
  let n := Z.of_nat (nat_of_ascii c) in
  if (48 <=? n) && (n <=? 57) then Some (n - 48) else None.

Fixpoint number_of (s : string) (acc : Z) : option Z :=
  match s with
  | EmptyString => Some acc
  | String c rest =>
      match digit_of c with
      | Some d => number_of rest (10 * acc + d)
      | None => None
      end
  end.

(** The [len] digits of [s] from position [start], as a number. *)
Definition field (s : string) (start len : nat) : option Z :=
  let t := substring start len s in
  if (String.length t =? len)%nat then number_of t 0 else None.

Definition char_is (s : string) (i : nat) (c : ascii) : bool :=
  match get i s with
  | Some c' => (c' =? c)%char
  | None => false
  end.

Definition is_leap (y : Z) : bool :=
  ((y mod 4 =? 0) && negb (y mod 100 =? 0)) || (y mod 400 =? 0).

Definition days_in_month (y m : Z) : Z :=
  if m =? 2 then (if is_leap y then 29 else 28)
  else if (m =? 4) || (m =? 6) || (m =? 9) || (m =? 11) then 30
  else 31.

Definition valid_date (d : date) : bool :=
  (1 <=? year d) && (year d <=? 9999)
  && (1 <=? month d) && (month d <=? 12)
  && (1 <=? day d) && (day d <=? days_in_month (year d) (month d)).

(** [YYYY-MM-DD] at the start of [s]. *)
Definition parse_date (s : string) : option date :=
  match field s 0 4, field s 5 2, field s 8 2 with
  | Some y, Some m, Some d =>
      let r := mkdate y m d in
      if char_is s 4 "-" && char_is s 7 "-" && valid_date r
      then Some r else None
  | _, _, _ => None
  end.

(** [HH:MM:SS] from position [i]. *)
Definition parse_time (s : string) (i : nat) : option (Z * Z * Z) :=
  match field s i 2, field s (i + 3) 2, field s (i + 6) 2 with
  | Some h, Some m, Some sec =>
      if char_is s (i + 2) ":" && char_is s (i + 5) ":"
         && (h <=? 23) && (m <=? 59) && (sec <=? 59)
      then Some (h, m, sec) else None
  | _, _, _ => None
  end.

(** [+HH:MM] or [-HH:MM] from position [i], in microseconds east. *)
Definition parse_offset (s : string) (i : nat) : option Z :=
  match field s (i + 1) 2, field s (i + 4) 2 with
  | Some h, Some m =>
      if char_is s (i + 3) ":" && (h <=? 23) && (m <=? 59) then
        let us := (h * 3600 + m * 60) * 1000000 in
        if char_is s i "+" then Some us
        else if char_is s i "-" then Some (- us)
        else None
      else None
  | _, _ => None
  end.

Definition fromisoformat (s : string) : option datetime :=
  match String.length s with
  | 10%nat =>
      match parse_date s with
      | Some d => Some (mkdatetime d 0 0 0 0 None)
      | None => None
      end
  | 19%nat =>
      match parse_date s, parse_time s 11 with
      | Some d, Some (h, m, sec) =>
          if char_is s 10 "T" then Some (mkdatetime d h m sec 0 None)
          else None
      | _, _ => None
      end
  | 25%nat =>
      match parse_date s, parse_time s 11, parse_offset s 19 with
      | Some d, Some (h, m, sec), Some off =>
          if char_is s 10 "T" then Some (mkdatetime d h m sec 0 (Some off))
          else None
      | _, _, _ => None
      end
  | _ => None
  end.

Definition strptime (s fmt : string) : option datetime :=
  if (fmt =? "%Y-%m-%d")%string && (String.length s =? 10)%nat then
    match parse_date s with
    | Some d => Some (mkdatetime d 0 0 0 0 None)
    | None => None
    end
  else None.

(** The double quote. *)
Definition dq : string := String (ascii_of_nat 34) EmptyString.

(** [{"@timestamp": 12345, "url": "/a", "response_time": 0.1}] *)
Definition line_numeric_timestamp : string :=
  "{" ++ dq ++ "@timestamp" ++ dq ++ ": 12345, "
      ++ dq ++ "url" ++ dq ++ ": " ++ dq ++ "/a" ++ dq ++ ", "
      ++ dq ++ "response_time" ++ dq ++ ": 0.1}".

(** [{"@timestamp": "2025-06-22T13:57:32+00:00", "url": "/b",
      "response_time": 0.3}] *)
Definition line_june_22 : string :=
  "{" ++ dq ++ "@timestamp" ++ dq ++ ": "
      ++ dq ++ "2025-06-22T13:57:32+00:00" ++ dq ++ ", "
      ++ dq ++ "url" ++ dq ++ ": " ++ dq ++ "/b" ++ dq ++ ", "
      ++ dq ++ "response_time" ++ dq ++ ": 0.3}".

(** The binary64 nearest to [n / d], for [n] and [d] that are themselves
    binary64 values. *)
Definition ratio (n d : Z) : float :=
  SFdiv prec emax (binary_normalize prec emax n 0 false)
                  (binary_normalize prec emax d 0 false).

Definition record_numeric_timestamp : value :=
  VDict [("@timestamp", VInt 12345); ("url", VStr "/a");
         ("response_time", VFloat (ratio 1 10))].

Definition record_june_22 : value :=
  VDict [("@timestamp", VStr "2025-06-22T13:57:32+00:00");
         ("url", VStr "/b"); ("response_time", VFloat (ratio 3 10))].

Fixpoint repeat_string (s : string) (n : nat) : string :=
  match n with
  | O => EmptyString
  | S n' => s ++ repeat_string s n'
  end.

(** A hundred thousand opening brackets: the decoder nests too deep and
    gives up with [RecursionError]. *)
Definition line_deeply_nested : string :=
  repeat_string "[" (Z.to_nat 100000).

(** [json.loads] on the lines of the examples.  Any other text is treated
    like the line [invalid json line] of the tests, the only other text it
    is applied to. *)
Definition json_loads (s : string) : outcome value :=
  if (s =? line_numeric_timestamp)%string then Ret record_numeric_timestamp
  else if (s =? line_june_22)%string then Ret record_june_22
  else if (s =? line_deeply_nested)%string then Raise RecursionError
  else Raise JSONDecodeError.

(** A plain rendering, one line per row. *)
Definition render_value (v : value) : string :=
  match v with
  | VStr s => s
  | _ => "?"
  end.

Definition tabulate (rows : list row) (headers : list string) : string :=
  String.concat " | " headers
  ++ String.concat ""
       (map (fun r => String (ascii_of_nat 10)
                        (render_value (row_url r) ++ " | "
                         ++ decimal (row_total r) ++ " | " ++ row_avg r))
            rows).

Definition lib : pylib := mkpylib fromisoformat strptime json_loads tabulate.

End PyRef.

(* ================================================================== *)
(** * Notions of the specification *)
(* ================================================================== *)

Definition next_day (d : date) : date :=
  if day d <? PyRef.days_in_month (year d) (month d)
  then mkdate (year d) (month d) (day d + 1)
  else if month d <? 12 then mkdate (year d) (month d + 1) 1
  else mkdate (year d + 1) 1 1.

Definition prev_day (d : date) : date :=
  if 1 <? day d then mkdate (year d) (month d) (day d - 1)
  else if 1 <? month d
  then mkdate (year d) (month d - 1)
              (PyRef.days_in_month (year d) (month d - 1))
  else mkdate (year d - 1) 12 31.

(** Microseconds since midnight, on the datetime's own clock. *)
Definition time_of_day (dt : datetime) : Z :=
  ((hour dt * 60 + minute dt) * 60 + second dt) * 1000000 + microsecond dt.

Definition day_us : Z := 86400 * 1000000.

(** The calendar date of the instant in UTC: the specification's
    [calendar date portion (UTC)].  An offset is less than a day, so the
    UTC date is the written date or one of its neighbours. *)
Definition utc_date (dt : datetime) : date :=
  match utcoffset dt with
  | None => dt_date dt
  | Some off =>
      let t := time_of_day dt - off in
      if t <? 0 then prev_day (dt_date dt)
      else if day_us <=? t then next_day (dt_date dt)
      else dt_date dt
  end.

(* ================================================================== *)
(** * Loading as a function of its input *)
(* ================================================================== *)

Section Scan.

Variable L : pylib.

(** What one line of a file does to the store. *)
Inductive line_outcome : Type :=
| LSkip                  (* nothing *)
| LKeep (v : value)      (* the record is appended *)
| LWarn                  (* a warning is printed *)
| LAbort (e : exn).      (* e leaves the loop over the lines *)

Definition line_outcome_of (date_filter : option string) (line : string)
  : line_outcome :=
  let line := strip line in
  if negb (truthy (VStr line)) then LSkip
  else
    match json_loads L line with
    | Ret v =>
        match _should_include_log L v date_filter with
        | Ret true => LKeep v
        | Ret false => LSkip
        | Raise e => if issubclass e JSONDecodeError then LWarn else LAbort e
        end
    | Raise e => if issubclass e JSONDecodeError then LWarn else LAbort e
    end.

(** Records retained, diagnostics printed, and the exception that ends the
    scan, if any. *)
Fixpoint scan_lines (file_path : string) (date_filter : option string)
    (lines : list string) (line_num : Z)
  : list value * list diag * option exn :=
  match lines with
  | [] => ([], [], None)
  | line :: rest =>
      match line_outcome_of date_filter line with
      | LAbort e => ([], [], Some e)
      | o =>
          let '(vs, ds, stop) :=
            scan_lines file_path date_filter rest (line_num + 1) in
          match o with
          | LKeep v => (v :: vs, ds, stop)
          | LWarn => (vs, WarnInvalidJson file_path line_num :: ds, stop)
          | _ => (vs, ds, stop)
          end
      end
  end.

(** What one pass of the loop over the paths adds.  A path at which
    [path.exists()] raises adds nothing; the loop ends there, see
    [scan_paths]. *)
Definition scan_file (fs : filesystem) (date_filter : option string)
    (file_path : string) : list value * list diag :=
  match fs file_path with
  | Missing => ([], [WarnMissing file_path])
  | Unopenable e => ([], [ErrReading file_path e])
  | Readable lines failure =>
      let '(vs, ds, stop) := scan_lines file_path date_filter lines 1 in
      match stop, failure with
      | Some e, _ => (vs, (ds ++ [ErrReading file_path e])%list)
      | None, Some e => (vs, (ds ++ [ErrReading file_path e])%list)
      | None, None => (vs, ds)
      end
  | Inaccessible _ => ([], [])
  end.

(** The records a file contributes to the store. *)
Definition file_records (fs : filesystem) (date_filter : option string)
    (file_path : string) : list value :=
  fst (scan_file fs date_filter file_path).

Definition file_diags (fs : filesystem) (date_filter : option string)
    (file_path : string) : list diag :=
  snd (scan_file fs date_filter file_path).

(** The paths in order, up to the first one at which [path.exists()]
    raises: the records and diagnostics so far, and the exception. *)
Fixpoint scan_paths (fs : filesystem) (date_filter : option string)
    (file_paths : list string) : list value * list diag * option exn :=
  match file_paths with
  | [] => ([], [], None)
  | p :: rest =>
      match fs p with
      | Inaccessible e => ([], [], Some e)
      | _ =>
          let '(vs, ds, stop) := scan_paths fs date_filter rest in
          ((file_records fs date_filter p ++ vs)%list,
           (file_diags fs date_filter p ++ ds)%list, stop)
      end
  end.

(** The same for in-memory records: those retained before the filter
    raises, and the exception. *)
Fixpoint scan_data (date_filter : option string) (log_data : list value)
  : list value * option exn :=
  match log_data with
  | [] => ([], None)
  | v :: rest =>
      match _should_include_log L v date_filter with
      | Raise e => ([], Some e)
      | Ret include =>
          let '(vs, stop) := scan_data date_filter rest in
          (if include then v :: vs else vs, stop)
      end
  end.

(** The record a line holds: the line is not blank and [json.loads]
    returns. *)
Definition parsed_record (line : string) : list value :=
  let line := strip line in
  if negb (truthy (VStr line)) then []
  else match json_loads L line with
       | Ret v => [v]
       | Raise _ => []
       end.

(** The filter returns [True]. *)
Definition passes (date_filter : option string) (v : value) : bool :=
  match _should_include_log L v date_filter with
  | Ret true => true
  | _ => false
  end.

(** The passing records of some lines, in order. *)
Definition passing_records (date_filter : option string)
    (lines : list string) : list value :=
  filter (passes date_filter) (flat_map parsed_record lines).

(** The successfully parsed non-blank lines of the files, in order. *)
Definition parsed_records (fs : filesystem) (file_paths : list string)
  : list value :=
  flat_map (fun p => match fs p with
                     | Readable lines _ => flat_map parsed_record lines
                     | _ => []
                     end) file_paths.

(** A line whose only possible failure is a JSON decoding error. *)
Definition line_fails_as_json_only (date_filter : option string)
    (line : string) : bool :=
  match line_outcome_of date_filter line with
  | LAbort _ => false
  | _ => true
  end.

End Scan.

(** The filter can be applied to [v] without an exception: [v] is a dict
    whose [@timestamp] is a string or falsy. *)
Definition filter_safe (v : value) : bool :=
  match v with
  | VDict d =>
      match dict_get d "@timestamp" with
      | VStr _ => true
      | t => negb (truthy t)
      end
  | _ => false
  end.

(** The two ways of loading. *)
Inductive load_call : Type :=
| FromFiles (fs : filesystem) (file_paths : list string)
            (date_filter : option string)
| FromData (log_data : list value) (date_filter : option string).

Definition run_load (L : pylib) (c : load_call) : M unit :=
  match c with
  | FromFiles fs file_paths date_filter =>
      load_logs L fs file_paths date_filter
  | FromData log_data date_filter =>
      load_logs_from_data L log_data date_filter
  end.

(** What a load leaves in the store, from its input alone. *)
Definition loaded (L : pylib) (c : load_call) : list value :=
  match c with
  | FromFiles fs file_paths date_filter =>
      fst (fst (scan_paths L fs date_filter file_paths))
  | FromData log_data date_filter =>
      fst (scan_data L date_filter log_data)
  end.

(* ================================================================== *)
(** * Stores of records and what they contribute *)
(* ================================================================== *)

(** A log record is a dict; a store holds records. *)
Definition record : Type := list (string * value).

Definition store_of (rs : list record) : list value := map VDict rs.

(** [sys.maxsize]: no list is longer. *)
Definition sys_maxsize : Z := 2 ^ 63 - 1.

Definition url_of (r : record) : value := dict_get r "url".
Definition response_time_of (r : record) : value := dict_get r "response_time".

(** The record takes part in the aggregation. *)
Definition aggregated (r : record) : bool :=
  truthy (url_of r) && negb (is_none (response_time_of r)).

(** The record has the url [u] and a response time that is not null. *)
Definition contributes (u : string) (r : record) : bool :=
  match url_of r with
  | VStr s => (s =? u)%string && negb (is_none (response_time_of r))
  | _ => false
  end.

(** The response times recorded for [u], in store order. *)
Definition contributions (u : string) (rs : list record) : list value :=
  map response_time_of (filter (contributes u) rs).

(** A url that is a string, null or absent. *)
Definition url_is_string_or_absent (r : record) : bool :=
  match url_of r with
  | VStr _ | VNone => true
  | _ => false
  end.

(** A response time that is a number of any size (a float, an int or a
    bool), or null. *)
Definition response_time_is_numeric (r : record) : bool :=
  match response_time_of r with
  | VNone | VFloat _ | VInt _ | VBool _ => true
  | _ => false
  end.

(** The same, with the ints in the range of binary64. *)
Definition response_time_is_double (r : record) : bool :=
  match response_time_of r with
  | VNone | VFloat _ | VBool _ => true
  | VInt z => Z.abs z <? double_int_bound
  | _ => false
  end.

Definition well_formed_record (r : record) : bool :=
  url_is_string_or_absent r && response_time_is_double r.

(** The float a number converts to in a sum. *)
Definition to_float (v : value) : float :=
  match v with
  | VFloat f => f
  | VInt z => binary_normalize prec emax z 0 false
  | VBool b => binary_normalize prec emax (if b then 1 else 0) 0 false
  | _ => S754_zero false
  end.

(** [0.0 + v1 + v2 + ...], from the left. *)
Definition sum_floats (vs : list value) : float :=
  fold_left (fun acc v => SFadd prec emax acc (to_float v)) vs
            (S754_zero false).

(** The average of the response times recorded for [u]: their sum divided
    by their number. *)
Definition average_of (u : string) (rs : list record) : float :=
  let cs := contributions u rs in
  SFdiv prec emax (sum_floats cs)
        (binary_normalize prec emax (Z.of_nat (length cs)) 0 false).

Definition float_is_finite (x : float) : bool :=
  match x with
  | S754_zero _ | S754_finite _ _ _ => true
  | _ => false
  end.

Definition is_digit (c : ascii) : bool :=
  let n := Z.of_nat (nat_of_ascii c) in (48 <=? n) && (n <=? 57).

Fixpoint all_digits (s : string) : bool :=
  match s with
  | EmptyString => true
  | String c rest => is_digit c && all_digits rest
  end.

(** Fixed-point notation with exactly three decimal digits: an optional
    minus sign, one digit or more, a point, three digits. *)
Definition fixed_point_3 (s : string) : Prop :=
  exists sign int_part frac_part,
    s = sign ++ int_part ++ "." ++ frac_part
    /\ (sign = "" \/ sign = "-")
    /\ int_part <> "" /\ all_digits int_part = true
    /\ String.length frac_part = 3%nat /\ all_digits frac_part = true.

(** Rows in ascending order of their url strings. *)
Definition row_before (a b : row) : Prop :=
  match row_url a, row_url b with
  | VStr s, VStr t => String.ltb s t = true
  | _, _ => False
  end.

Definition item_before (a b : value * stats) : Prop :=
  match fst a, fst b with
  | VStr s, VStr t => String.ltb s t = true
  | _, _ => False
  end.

Definition key_is_string (kv : value * stats) : Prop :=
  exists u, fst kv = VStr u.

(** The row the second loop makes of an item. *)
Definition row_of (kv : value * stats) : row :=
  mkrow (fst kv) (count (snd kv))
    (format_3f (SFdiv prec emax (total_time (snd kv))
                  (binary_normalize prec emax (count (snd kv)) 0 false))).

(** The entry of a string key. *)
Fixpoint lookup (d : stats_dict) (u : string) : option stats :=
  match d with
  | [] => None
  | (VStr s, st) :: rest => if (s =? u)%string then Some st else lookup rest u
  | _ :: rest => lookup rest u
  end.

(** One more response time in an entry. *)
Definition add_time (st : stats) (v : value) : stats :=
  mkstats (count st + 1) (SFadd prec emax (total_time st) (to_float v)).

(** The dictionary after one more record with the url [u]. *)
Fixpoint bump (d : stats_dict) (u : string) (v : value) : stats_dict :=
  match d with
  | [] => [(VStr u, add_time default_stats v)]
  | (k, st) :: rest =>
      if key_eqb k (VStr u) then (k, add_time st v) :: rest
      else (k, st) :: bump rest u v
  end.

(** The first loop on one well-formed record. *)
Definition step (d : stats_dict) (r : record) : stats_dict :=
  if aggregated r then
    match url_of r with
    | VStr u => bump d u (response_time_of r)
    | _ => d
    end
  else d.

Definition outcome_of_stop (stop : option exn) : outcome unit :=
  match stop with
  | None => Ret tt
  | Some e => Raise e
  end.

(** The time of day lies within the day, as in every [datetime]. *)
Definition time_in_day (dt : datetime) : Prop :=
  0 <= time_of_day dt < day_us.

(** An element of the store after a load: where it comes from. *)
Definition from_input (L : pylib) (c : load_call) (v : value) : Prop :=
  match c with
  | FromData log_data date_filter =>
      In v log_data /\ _should_include_log L v date_filter = Ret true
  | FromFiles fs file_paths date_filter =>
      exists p lines failure,
        In p file_paths /\ fs p = Readable lines failure
        /\ In v (passing_records L date_filter lines)
  end.

(* ================================================================== *)
(** * Inputs of the examples *)
(* ================================================================== *)


(** The same two lines, one per file. *)
Definition fs_two_files : filesystem := fun p =>
  if (p =? "a.log")%string
  then Readable [PyRef.line_numeric_timestamp] None
  else if (p =? "b.log")%string
  then Readable [PyRef.line_june_22] None
  else Missing.

(** A file with a record, a blank line and a malformed line, and a second
    file. *)
Definition fs_scenario : filesystem := fun p =>
  if (p =? "a.log")%string
  then Readable [PyRef.line_june_22; "  "; "invalid json line";
                 PyRef.line_june_22] None
  else if (p =? "b.log")%string
  then Readable [PyRef.line_june_22] (Some UnicodeDecodeError)
  else Missing.

Definition empty_world : world := mkworld [] [].

(** A name longer than the system accepts, as [Path("a" * 300)]. *)
Definition long_name : string :=
  Eval cbv in String.concat "" (repeat "a" 300).

(** [path.exists()] raises at the long name; [b.log] holds a record. *)
Definition fs_long_name : filesystem := fun p =>
  if (p =? long_name)%string then Inaccessible OSError
  else if (p =? "b.log")%string
  then Readable [PyRef.line_june_22] None
  else Missing.

Definition record_june_23 : value :=
  VDict [("@timestamp", VStr "2025-06-23T13:57:32+00:00");
         ("url", VStr "/c"); ("response_time", VInt 2)].


Definition record_a (response_time : value) : record :=
  [("url", VStr "/a"); ("response_time", response_time)].

Definition record_of (url : string) (response_time : value) : record :=
  [("url", VStr url); ("response_time", response_time)].

(* ================================================================== *)
(** * Dictionaries with string keys *)
(* ================================================================== *)

Definition good_key (kv : value * stats) : Prop :=
  exists u, fst kv = VStr u /\ u <> "".

Definition keys (d : stats_dict) : list value := map fst d.

(** The entry of [u] after some records, from the entry before. *)
Definition accumulate (o : option stats) (cs : list value) : option stats :=
  match cs with
  | [] => o
  | _ => Some (fold_left add_time cs
                 (match o with Some st => st | None => default_stats end))
  end.

(* ================================================================== *)
(** * The command line: [main] *)
(* ================================================================== *)

(** The namespace [parser.parse_args()] returns: [args.file] (one path or
    more), [args.report] and [args.date] ([None] without [--date]). *)
Record arguments : Type := mkargs {
  arg_file : list string;
  arg_report : string;
  arg_date : option string
}.

(** What [main] and the loader print on [sys.stderr]. *)
Inductive message : Type :=
| Diagnostic (d : diag)            (* printed within load_logs *)
| InvalidDateFormat                (* Error: Invalid date format. ... *)
| NoValidEntries                   (* No valid log entries found. *)
| UnknownReportType (t : string).  (* Error: Unknown report type ... *)

(** The two streams after [main]. *)
Record console : Type := mkconsole {
  err : list message;
  out : list string
}.

(** How [main] ends: it returns, it calls [sys.exit(code)], or an
    exception leaves it (the traceback the interpreter then prints is not
    part of [err]). *)
Inductive ending : Type :=
| Returned
| SystemExit (code : Z)
| Uncaught (e : exn).


(** [LogProcessor.__init__] *)
Definition new_processor : world := mkworld [] [].

(** The check of [args.date] at the head of [main]. *)
Definition date_is_valid (L : pylib) (date : option string) : bool :=
  match date with
  | None => true
  | Some d =>
      if truthy (VStr d) then
        match strptime L d "%Y-%m-%d" with
        | Some _ => true
        | None => false      (* except ValueError *)
        end
      else true
  end.

(** [print(text)] on [sys.stdout]: the text is written, or its encoding for
    the stream fails and nothing of it is written.  ([sys.stderr] escapes
    what it cannot encode, so the messages always get through.) *)
Definition stdout : Type := string -> outcome unit.

(** A stream that takes every text, as one encoded in UTF-8. *)
Definition stdout_utf8 : stdout := fun _ => Ret tt.

Fixpoint is_ascii (s : string) : bool :=
  match s with
  | EmptyString => true
  | String c rest => (N_of_ascii c <? 128)%N && is_ascii rest
  end.

(** A stream encoded in ASCII. *)
Definition stdout_ascii : stdout := fun text =>
  if is_ascii text then Ret tt else Raise UnicodeEncodeError.

(** [main], after the arguments are parsed. *)
Definition main (L : pylib) (fs : filesystem) (print_out : stdout)
    (args : arguments) : ending * console :=
  if negb (date_is_valid L (arg_date args)) then
    (SystemExit 1, mkconsole [InvalidDateFormat] [])
  else
    let '(r, processor) :=
      load_logs L fs (arg_file args) (arg_date args) new_processor in
    let printed := map Diagnostic (stderr processor) in
    match r with
    | Raise e => (Uncaught e, mkconsole printed [])
    | Ret _ =>
        if negb (truthy (VList (logs processor))) then
          (SystemExit 1, mkconsole (printed ++ [NoValidEntries]) [])
        else
          match generate_report L (logs processor) (arg_report args) with
          | Raise e => (Uncaught e, mkconsole printed [])
          | Ret None =>
              (SystemExit 1,
               mkconsole (printed ++ [UnknownReportType (arg_report args)]) [])
          | Ret (Some report) =>
              match print_out report with
              | Raise e => (Uncaught e, mkconsole printed [])
              | Ret _ => (Returned, mkconsole printed [report])
              end
          end
    end.

(* ================================================================== *)
(** * Further notions *)
(* ================================================================== *)

(** [l] is [m] with some elements left out, the order kept. *)
Inductive subsequence {A : Type} : list A -> list A -> Prop :=
| subsequence_nil : subsequence [] []
| subsequence_keep (x : A) (l m : list A) :
    subsequence l m -> subsequence (x :: l) (x :: m)
| subsequence_drop (x : A) (l m : list A) :
    subsequence l m -> subsequence l (x :: m).

(** The records a load is given: the in-memory records, or the records of
    the non-blank lines of the files that [json.loads] returns. *)
Definition input_records (L : pylib) (c : load_call) : list value :=
  match c with
  | FromFiles fs file_paths _ => parsed_records L fs file_paths
  | FromData log_data _ => log_data
  end.

(** A record that a date filter lets in: a dict with a non-empty string
    [@timestamp] that parses, to the date the filter parses to. *)
Definition dated (L : pylib) (f : string) (v : value) : Prop :=
  exists d ts log_dt filter_dt,
    v = VDict d
    /\ dict_get d "@timestamp" = VStr ts /\ ts <> ""
    /\ fromisoformat L (replace "Z" "+00:00" ts) = Some log_dt
    /\ strptime L f "%Y-%m-%d" = Some filter_dt
    /\ date_of log_dt = date_of filter_dt.

(** No capital [Z] in the string. *)
Fixpoint has_no_Z (s : string) : bool :=
  match s with
  | EmptyString => true
  | String c rest => negb (c =? "Z")%char && has_no_Z rest
  end.

(** Only white space in the string. *)
Fixpoint all_space (s : string) : bool :=
  match s with
  | EmptyString => true
  | String c rest => isspace c && all_space rest
  end.

(** The sum of the counts of some rows. *)
Definition sum_totals (rows : list row) : Z :=
  fold_right (fun r acc => row_total r + acc) 0 rows.

Definition sum_counts (d : stats_dict) : Z :=
  fold_right (fun kv acc => count (snd kv) + acc) 0 d.


(** Inputs of further examples. *)
Definition args_average (files : list string) (date : option string)
  : arguments :=
  mkargs files "average" date.




(** The text [generate_report] makes of the rows. *)
Definition report_text (L : pylib) (rows : list row) : string :=
  match rows with
  | [] => "No data found for the specified criteria."
  | _ => tabulate L rows headers
  end.

(** A line whose url has a letter outside ASCII, [/caf] and e with acute
    accent, with a decoder that reads it and a file that holds it. *)
Definition url_cafe : string := "/caf" ++ String (ascii_of_nat 233) "".

Definition line_cafe : string :=
  "{" ++ PyRef.dq ++ "url" ++ PyRef.dq ++ ": "
      ++ PyRef.dq ++ url_cafe ++ PyRef.dq ++ ", "
      ++ PyRef.dq ++ "response_time" ++ PyRef.dq ++ ": 1}".

Definition lib_cafe : pylib :=
  mkpylib PyRef.fromisoformat PyRef.strptime
    (fun s => if (s =? line_cafe)%string
              then Ret (VDict [("url", VStr url_cafe);
                               ("response_time", VInt 1)])
              else PyRef.json_loads s)
    PyRef.tabulate.

Definition fs_cafe : filesystem := fun p =>
  if (p =? "cafe.log")%string then Readable [line_cafe] None else Missing.

(** The exceptions [generate_average_report] can end with. *)
Definition aggregation_error (e : exn) : Prop :=
  e = AttributeError \/ e = TypeError \/ e = OverflowError.

Definition counted (kv : value * stats) : Prop := 1 <= count (snd kv).

(* ================================================================== *)
(** * The date filter *)
(* ================================================================== *)

Section FilterFacts.

Variable L : pylib.

Lemma truthy_str_nonempty (s : string) : truthy (VStr s) = true <-> s <> "".
Proof.
  simpl. destruct (String.eqb_spec s ""); simpl; split; congruence.
Qed.

Lemma should_include_no_filter (v : value) :
  _should_include_log L v None = Ret true.
Proof. reflexivity. Qed.

Lemma should_include_empty_filter (v : value) :
  _should_include_log L v (Some "") = Ret true.
Proof. reflexivity. Qed.

(** With a filter, a value that is not a dict has no [get]. *)
Lemma should_include_not_dict (v : value) (f : string) :
  f <> "" -> (forall d, v <> VDict d) ->
  _should_include_log L v (Some f) = Raise AttributeError.
Proof.
  intros Hf Hv. unfold _should_include_log.
  apply truthy_str_nonempty in Hf. rewrite Hf. simpl.
  destruct v; try reflexivity. now elim (Hv d).
Qed.

(** A falsy timestamp (absent, null, empty, zero) excludes the record. *)
Lemma should_include_falsy_timestamp (d : record) (f : string) :
  f <> "" -> truthy (dict_get d "@timestamp") = false ->
  _should_include_log L (VDict d) (Some f) = Ret false.
Proof.
  intros Hf Ht. unfold _should_include_log.
  apply truthy_str_nonempty in Hf. rewrite Hf. simpl.
  rewrite Ht. reflexivity.
Qed.

(** A string timestamp: the two parses decide. *)
Lemma should_include_string_timestamp (d : record) (ts f : string) :
  f <> "" -> ts <> "" -> dict_get d "@timestamp" = VStr ts ->
  _should_include_log L (VDict d) (Some f) =
    match fromisoformat L (replace "Z" "+00:00" ts),
          strptime L f "%Y-%m-%d" with
    | Some log_dt, Some filter_dt =>
        Ret (date_eqb (date_of log_dt) (date_of filter_dt))
    | _, _ => Ret false
    end.
Proof.
  intros Hf Hts Hget. unfold _should_include_log.
  apply truthy_str_nonempty in Hf. rewrite Hf.
  cbn [negb py_get obind]. rewrite Hget.
  apply truthy_str_nonempty in Hts. rewrite Hts.
  cbn [negb py_replace obind].
  destruct (fromisoformat L _); [|reflexivity].
  destruct (strptime L f _); reflexivity.
Qed.

(** A truthy timestamp that is no string has no [replace]; the handler
    does not name [AttributeError]. *)
Lemma should_include_non_string_timestamp (d : record) (f : string) :
  f <> "" -> truthy (dict_get d "@timestamp") = true ->
  (forall ts, dict_get d "@timestamp" <> VStr ts) ->
  _should_include_log L (VDict d) (Some f) = Raise AttributeError.
Proof.
  intros Hf Ht Hns. unfold _should_include_log.
  apply truthy_str_nonempty in Hf. rewrite Hf.
  cbn [negb py_get obind]. rewrite Ht. cbn [negb].
  destruct (dict_get d "@timestamp"); try reflexivity.
  now elim (Hns s).
Qed.

(** [filter_safe] is exactly the absence of an exception. *)
Lemma filter_safe_returns (v : value) (f : option string) :
  filter_safe v = true -> exists b, _should_include_log L v f = Ret b.
Proof.
  intros Hs. destruct f as [f|]; [|now exists true].
  destruct (String.eqb_spec f "") as [->|Hf]; [now exists true|].
  destruct v; try discriminate. simpl in Hs.
  destruct (truthy (dict_get d "@timestamp")) eqn:Ht.
  - destruct (dict_get d "@timestamp") as [| | | |ts| |] eqn:Hget;
      simpl in Ht, Hs; rewrite ?Ht in Hs; try discriminate.
    rewrite (should_include_string_timestamp d ts f); auto.
    + destruct (fromisoformat L _); [|now exists false].
      destruct (strptime L f _); eauto.
    + intros ->. discriminate.
  - exists false. now apply should_include_falsy_timestamp.
Qed.

Lemma filter_unsafe_raises (v : value) (f : string) :
  f <> "" -> filter_safe v = false ->
  _should_include_log L v (Some f) = Raise AttributeError.
Proof.
  intros Hf Hs. destruct v;
    try (apply should_include_not_dict; [assumption|congruence]).
  simpl in Hs.
  destruct (truthy (dict_get d "@timestamp")) eqn:Ht.
  - apply should_include_non_string_timestamp; auto.
    intros ts E. rewrite E in Hs. discriminate.
  - destruct (dict_get d "@timestamp"); simpl in Ht, Hs;
      rewrite ?Ht in Hs; discriminate.
Qed.

End FilterFacts.

(* ================================================================== *)
(** * Loading *)
(* ================================================================== *)

Section LoadFacts.

Variable L : pylib.

Lemma world_eta (w : world) : mkworld (logs w) (stderr w) = w.
Proof. now destruct w. Qed.

(** One line, as a function of its outcome. *)
Lemma load_line_outcome (p : string) (f : option string) (n : Z)
    (line : string) (w : world) :
  load_line L p f n line w =
    match line_outcome_of L f line with
    | LSkip => (Ret tt, w)
    | LKeep v => (Ret tt, mkworld (logs w ++ [v]) (stderr w))
    | LWarn => (Ret tt, mkworld (logs w) (stderr w ++ [WarnInvalidJson p n]))
    | LAbort e => (Raise e, w)
    end.
Proof.
  unfold load_line, line_outcome_of.
  destruct (negb (truthy (VStr (strip line)))); [reflexivity|].
  unfold mtry_except, mbind, lift.
  destruct (json_loads L (strip line)) as [v|e].
  - destruct (_should_include_log L v f) as [[|]|e]; try reflexivity.
    destruct (issubclass e JSONDecodeError); reflexivity.
  - destruct (issubclass e JSONDecodeError); reflexivity.
Qed.

(** The loop over the lines of a file. *)
Lemma for_enumerate_scan (p : string) (f : option string)
    (lines : list string) :
  forall (n : Z) (w : world),
    for_enumerate lines n (load_line L p f) w =
      let '(vs, ds, stop) := scan_lines L p f lines n in
      (outcome_of_stop stop, mkworld (logs w ++ vs) (stderr w ++ ds)).
Proof.
  induction lines as [|line rest IH]; intros n w.
  - simpl. now rewrite !app_nil_r, world_eta.
  - cbn [for_enumerate scan_lines]. unfold mbind at 1.
    rewrite load_line_outcome.
    destruct (line_outcome_of L f line) as [|v| |e].
    + rewrite IH. now destruct (scan_lines L p f rest (n + 1)) as [[vs ds] stop].
    + rewrite IH. destruct (scan_lines L p f rest (n + 1)) as [[vs ds] stop].
      cbn [logs stderr]. now rewrite <- app_assoc.
    + rewrite IH. destruct (scan_lines L p f rest (n + 1)) as [[vs ds] stop].
      cbn [logs stderr]. now rewrite <- app_assoc.
    + simpl. now rewrite !app_nil_r, world_eta.
Qed.

(** One file: what [path.exists()] raises leaves it and the world is as
    before; otherwise it returns, having appended its records and its
    diagnostics. *)
Lemma load_file_scan (fs : filesystem) (f : option string) (p : string)
    (w : world) :
  load_file L fs f p w =
    match fs p with
    | Inaccessible e => (Raise e, w)
    | _ => (Ret tt, mkworld (logs w ++ file_records L fs f p)
                            (stderr w ++ file_diags L fs f p))
    end.
Proof.
  unfold load_file, file_records, file_diags, scan_file, path_exists.
  unfold mbind at 1. unfold lift at 1.
  unfold mtry_except, mbind, lift, open.
  destruct (fs p) as [|e|lines failure|e]; cbn [negb fst snd].
  - unfold print_stderr. now rewrite app_nil_r.
  - unfold print_stderr. now rewrite app_nil_r.
  - rewrite for_enumerate_scan.
    destruct (scan_lines L p f lines 1) as [[vs ds] [e|]]; cbn [outcome_of_stop].
    + unfold print_stderr. cbn [logs stderr fst snd]. now rewrite <- app_assoc.
    + destruct failure as [e|]; cbn [end_of_file lift mret fst snd].
      * unfold print_stderr. cbn [logs stderr]. now rewrite <- app_assoc.
      * reflexivity.
  - reflexivity.
Qed.

Lemma for_each_load_file (fs : filesystem) (f : option string)
    (paths : list string) :
  forall w : world,
    for_each paths (load_file L fs f) w =
      (outcome_of_stop (snd (scan_paths L fs f paths)),
       mkworld (logs w ++ fst (fst (scan_paths L fs f paths)))
               (stderr w ++ snd (fst (scan_paths L fs f paths)))).
Proof.
  induction paths as [|p rest IH]; intros w.
  - simpl. now rewrite !app_nil_r, world_eta.
  - cbn [for_each scan_paths]. unfold mbind. rewrite load_file_scan.
    destruct (fs p) as [|e|lines failure|e];
      try (rewrite IH; destruct (scan_paths L fs f rest) as [[vs ds] stop];
           cbn [fst snd logs stderr]; now rewrite <- !app_assoc).
    cbn [fst snd outcome_of_stop]. now rewrite !app_nil_r, world_eta.
Qed.

(** [load_logs] as a function of its input. *)
Lemma load_logs_scan (fs : filesystem) (paths : list string)
    (f : option string) (w : world) :
  load_logs L fs paths f w =
    (outcome_of_stop (snd (scan_paths L fs f paths)),
     mkworld (fst (fst (scan_paths L fs f paths)))
             (stderr w ++ snd (fst (scan_paths L fs f paths)))).
Proof.
  unfold load_logs, mbind, set_logs. now rewrite for_each_load_file.
Qed.

(** Where [path.exists()] returns at every path, each path contributes. *)
Lemma scan_paths_accessible (fs : filesystem) (f : option string)
    (paths : list string) :
  Forall (fun p => accessible fs p = true) paths ->
  scan_paths L fs f paths =
    (flat_map (file_records L fs f) paths,
     flat_map (file_diags L fs f) paths, None).
Proof.
  induction 1 as [|p rest Hp _ IH]; [reflexivity|].
  cbn [scan_paths flat_map]. rewrite IH. unfold accessible in Hp.
  now destruct (fs p).
Qed.

Lemma load_logs_accessible (fs : filesystem) (paths : list string)
    (f : option string) (w : world) :
  Forall (fun p => accessible fs p = true) paths ->
  load_logs L fs paths f w =
    (Ret tt, mkworld (flat_map (file_records L fs f) paths)
                     (stderr w ++ flat_map (file_diags L fs f) paths)).
Proof.
  intros H. now rewrite load_logs_scan, (scan_paths_accessible _ _ _ H).
Qed.

(** The scan of a list of paths in two parts: the second part counts when
    the first raises nothing. *)
Lemma scan_paths_app (fs : filesystem) (f : option string)
    (ps1 ps2 : list string) :
  scan_paths L fs f (ps1 ++ ps2) =
    match scan_paths L fs f ps1 with
    | (vs, ds, Some e) => (vs, ds, Some e)
    | (vs, ds, None) =>
        let '(vs', ds', stop) := scan_paths L fs f ps2 in
        ((vs ++ vs')%list, (ds ++ ds')%list, stop)
    end.
Proof.
  induction ps1 as [|p rest IH].
  - simpl. now destruct (scan_paths L fs f ps2) as [[vs ds] stop].
  - cbn [app scan_paths]. rewrite IH.
    destruct (scan_paths L fs f rest) as [[vs ds] [e|]];
      destruct (scan_paths L fs f ps2) as [[vs' ds'] stop];
      destruct (fs p); try reflexivity; now rewrite !app_assoc.
Qed.

(** What the scan retains comes from one of the paths. *)
Lemma scan_paths_in (fs : filesystem) (f : option string)
    (paths : list string) (v : value) :
  In v (fst (fst (scan_paths L fs f paths))) ->
  exists p, In p paths /\ In v (file_records L fs f p).
Proof.
  induction paths as [|p rest IH]; [intros []|].
  cbn [scan_paths].
  assert (Hcons : In v (file_records L fs f p
                        ++ fst (fst (scan_paths L fs f rest))) ->
                  exists q, In q (p :: rest) /\ In v (file_records L fs f q)).
  { intros Hin. apply in_app_or in Hin as [Hin|Hin].
    - exists p. split; [now left|assumption].
    - destruct (IH Hin) as [q [Hq Hv]]. exists q. split; [now right|assumption]. }
  destruct (fs p) as [|e|lines failure|e];
    try (destruct (scan_paths L fs f rest) as [[vs ds] stop];
         cbn [fst snd] in *; exact Hcons).
  intros [].
Qed.

Lemma for_each_from_data (f : option string) (data : list value) :
  forall w : world,
    for_each data (fun log_entry =>
      include <~ lift (_should_include_log L log_entry f) ;;
      if include then logs_append log_entry else mret tt) w =
      (outcome_of_stop (snd (scan_data L f data)),
       mkworld (logs w ++ fst (scan_data L f data)) (stderr w)).
Proof.
  induction data as [|v rest IH]; intros w.
  - simpl. now rewrite app_nil_r, world_eta.
  - cbn [for_each scan_data]. unfold mbind at 1. unfold mbind at 1, lift.
    destruct (_should_include_log L v f) as [[|]|e].
    + unfold logs_append. rewrite IH.
      destruct (scan_data L f rest) as [vs stop]. cbn [fst snd logs stderr].
      now rewrite <- app_assoc.
    + unfold mret. rewrite IH.
      now destruct (scan_data L f rest) as [vs stop].
    + simpl. now rewrite app_nil_r, world_eta.
Qed.

(** [load_logs_from_data] as a function of its input. *)
Lemma load_logs_from_data_scan (data : list value) (f : option string)
    (w : world) :
  load_logs_from_data L data f w =
    (outcome_of_stop (snd (scan_data L f data)),
     mkworld (fst (scan_data L f data)) (stderr w)).
Proof.
  unfold load_logs_from_data. unfold mbind at 1. unfold set_logs.
  now rewrite for_each_from_data.
Qed.

(** The effect of a load on the store depends on its input only. *)
Lemma run_load_logs (c : load_call) (w : world) :
  logs (snd (run_load L c w)) = loaded L c.
Proof.
  destruct c as [fs paths f|data f]; simpl.
  - now rewrite load_logs_scan.
  - now rewrite load_logs_from_data_scan.
Qed.

(** Without an exception the scan of in-memory records is a filter. *)
Lemma scan_data_returns (f : option string) (data : list value) :
  Forall (fun v => exists b, _should_include_log L v f = Ret b) data ->
  scan_data L f data = (filter (passes L f) data, None).
Proof.
  induction 1 as [|v rest [b Hv] _ IH]; [reflexivity|].
  cbn [scan_data filter]. unfold passes at 1.
  rewrite Hv, IH. now destruct b.
Qed.

Lemma scan_data_safe (f : option string) (data : list value) :
  Forall (fun v => filter_safe v = true) data ->
  scan_data L f data = (filter (passes L f) data, None).
Proof.
  intros H. apply scan_data_returns. rewrite Forall_forall in *.
  intros v Hv. apply filter_safe_returns. now apply H.
Qed.

Lemma scan_data_sound (f : option string) (data : list value) (v : value) :
  In v (fst (scan_data L f data)) ->
  In v data /\ _should_include_log L v f = Ret true.
Proof.
  induction data as [|x rest IH]; simpl; [tauto|].
  destruct (_should_include_log L x f) as [b|e] eqn:E; simpl; [|tauto].
  destruct (scan_data L f rest) as [vs stop]. simpl in *.
  destruct b; simpl; intros H.
  - destruct H as [->|H]; [now split; [left|]|]. destruct (IH H). tauto.
  - destruct (IH H). tauto.
Qed.

(** A file whose lines fail as JSON only contributes all its passing
    records. *)
Lemma scan_lines_json_only (p : string) (f : option string)
    (lines : list string) :
  Forall (fun l => line_fails_as_json_only L f l = true) lines ->
  forall n, fst (fst (scan_lines L p f lines n)) = passing_records L f lines
            /\ snd (scan_lines L p f lines n) = None.
Proof.
  unfold passing_records.
  induction 1 as [|line rest Hl _ IH]; intros n; [now split|].
  cbn [scan_lines flat_map]. rewrite filter_app.
  specialize (IH (n + 1)).
  destruct (scan_lines L p f rest (n + 1)) as [[vs ds] stop].
  cbn [fst snd] in IH. destruct IH as [<- ->].
  unfold line_fails_as_json_only in Hl.
  unfold parsed_record.
  unfold line_outcome_of in *.
  destruct (negb (truthy (VStr (strip line)))); [now split|].
  destruct (json_loads L (strip line)) as [v|e].
  - cbn [filter]. unfold passes at 1.
    destruct (_should_include_log L v f) as [[|]|e]; try (now split).
    destruct (issubclass e JSONDecodeError); [now split|discriminate].
  - destruct (issubclass e JSONDecodeError); [now split|discriminate].
Qed.

(** In any case what a file contributes is what a prefix of its lines
    passes: records retained before a failure are kept. *)
Lemma parsed_passing_of_outcome (f : option string) (line : string) :
  filter (passes L f) (parsed_record L line) =
    match line_outcome_of L f line with
    | LKeep v => [v]
    | _ => []
    end.
Proof.
  unfold parsed_record, line_outcome_of.
  destruct (negb (truthy (VStr (strip line)))); [reflexivity|].
  destruct (json_loads L (strip line)) as [v|e].
  - cbn [filter]. unfold passes.
    destruct (_should_include_log L v f) as [[|]|e]; try reflexivity.
    destruct (issubclass e JSONDecodeError); reflexivity.
  - destruct (issubclass e JSONDecodeError); reflexivity.
Qed.

Lemma scan_lines_prefix (p : string) (f : option string)
    (lines : list string) :
  forall n, exists k,
    fst (fst (scan_lines L p f lines n)) = passing_records L f (firstn k lines).
Proof.
  unfold passing_records.
  induction lines as [|line rest IH]; intros n; [now exists 0%nat|].
  cbn [scan_lines].
  destruct (line_outcome_of L f line) as [|v| |e] eqn:E;
    [ | | |now exists 0%nat];
    destruct (IH (n + 1)) as [k Hk]; exists (S k);
    destruct (scan_lines L p f rest (n + 1)) as [[vs ds] stop];
    cbn [fst snd firstn flat_map] in *;
    rewrite filter_app, parsed_passing_of_outcome, E, <- Hk; reflexivity.
Qed.

End LoadFacts.

(* ================================================================== *)
(** * The filter and the loaders: the properties *)
(* ================================================================== *)

Lemma date_eqb_eq (a b : date) : date_eqb a b = true <-> a = b.
Proof.
  unfold date_eqb. destruct a as [y1 m1 d1], b as [y2 m2 d2]. simpl.
  rewrite !andb_true_iff, !Z.eqb_eq. split.
  - intros [[-> ->] ->]. reflexivity.
  - intros E. injection E as -> -> ->. auto.
Qed.

Lemma utc_date_zero_offset (dt : datetime) :
  time_in_day dt -> utcoffset dt = None \/ utcoffset dt = Some 0 ->
  utc_date dt = date_of dt.
Proof.
  unfold time_in_day, utc_date, date_of. intros [Hlo Hhi] [-> | ->].
  - reflexivity.
  - rewrite Z.sub_0_r.
    destruct (Z.ltb_spec (time_of_day dt) 0); [lia|].
    destruct (Z.leb_spec day_us (time_of_day dt)); [lia|reflexivity].
Qed.

(** C1 (amended).  For a record whose [@timestamp] is a string that
    [fromisoformat] parses once every [Z] is replaced by [+00:00], and a
    filter that [strptime] parses as [%Y-%m-%d], the filter predicate
    returns whether the calendar date written in the timestamp (its year,
    month and day, with no conversion by the offset) equals the filter
    date; the time of day and the offset play no part.  When the offset is
    zero or absent that written date is the UTC date. *)
Theorem C1_should_include_compares_written_date
    (L : pylib) (d : record) (ts f : string) (log_dt filter_dt : datetime) :
  dict_get d "@timestamp" = VStr ts ->
  ts <> "" -> f <> "" ->
  fromisoformat L (replace "Z" "+00:00" ts) = Some log_dt ->
  strptime L f "%Y-%m-%d" = Some filter_dt ->
  _should_include_log L (VDict d) (Some f)
    = Ret (date_eqb (date_of log_dt) (date_of filter_dt))
  /\ (_should_include_log L (VDict d) (Some f) = Ret true
      <-> date_of log_dt = date_of filter_dt)
  /\ (time_in_day log_dt ->
      utcoffset log_dt = None \/ utcoffset log_dt = Some 0 ->
      (_should_include_log L (VDict d) (Some f) = Ret true
       <-> utc_date log_dt = date_of filter_dt)).
Proof.
  intros Hget Hts Hf Hiso Hfmt.
  assert (E : _should_include_log L (VDict d) (Some f)
              = Ret (date_eqb (date_of log_dt) (date_of filter_dt))).
  { rewrite (should_include_string_timestamp L d ts f Hf Hts Hget).
    now rewrite Hiso, Hfmt. }
  assert (I : _should_include_log L (VDict d) (Some f) = Ret true
              <-> date_of log_dt = date_of filter_dt).
  { rewrite E, <- date_eqb_eq. split; [now intros [= ->]|now intros ->]. }
  split; [exact E|]. split; [exact I|].
  intros Ht Hoff. rewrite utc_date_zero_offset by assumption. exact I.
Qed.

Lemma C1_should_include_compares_written_date_witness :
  _should_include_log PyRef.lib
    (VDict [("@timestamp", VStr "2025-06-22T13:57:32Z"); ("url", VStr "/a")])
    (Some "2025-06-22")
  = Ret true.
Proof.
  destruct (C1_should_include_compares_written_date PyRef.lib
              [("@timestamp", VStr "2025-06-22T13:57:32Z"); ("url", VStr "/a")]
              "2025-06-22T13:57:32Z" "2025-06-22"
              (mkdatetime (mkdate 2025 6 22) 13 57 32 0 (Some 0))
              (mkdatetime (mkdate 2025 6 22) 0 0 0 0 None))
    as [H _].
  - reflexivity.
  - discriminate.
  - discriminate.
  - vm_compute. reflexivity.
  - vm_compute. reflexivity.
  - exact H.
Defined.

(** C1, as stated, fails: the timestamp [2025-06-22T23:30:00-05:00] is
    included under the filter [2025-06-22], the date it is written with,
    while in UTC the instant falls on 2025-06-23. *)
Lemma C1_utc_date_counterexample :
  fromisoformat PyRef.lib (replace "Z" "+00:00" "2025-06-22T23:30:00-05:00")
    = Some (mkdatetime (mkdate 2025 6 22) 23 30 0 0 (Some (-18000000000)))
  /\ strptime PyRef.lib "2025-06-22" "%Y-%m-%d"
    = Some (mkdatetime (mkdate 2025 6 22) 0 0 0 0 None)
  /\ _should_include_log PyRef.lib
       (VDict [("@timestamp", VStr "2025-06-22T23:30:00-05:00")])
       (Some "2025-06-22") = Ret true
  /\ utc_date (mkdatetime (mkdate 2025 6 22) 23 30 0 0 (Some (-18000000000)))
     = mkdate 2025 6 23
  /\ mkdate 2025 6 23 <> mkdate 2025 6 22.
Proof.
  repeat split; try (vm_compute; reflexivity). discriminate.
Qed.

(** C2.  A record whose [@timestamp] is the number 12345 makes the filter
    predicate raise [AttributeError] under a date filter, instead of
    returning [False]: the handler names [ValueError] and [TypeError]
    only.  Loading the record from memory raises with it. *)
Theorem C2_numeric_timestamp_raises (L : pylib) (w : world) :
  _should_include_log L (VDict [("@timestamp", VInt 12345)])
    (Some "2025-06-22") = Raise AttributeError
  /\ load_logs_from_data L [VDict [("@timestamp", VInt 12345)]]
       (Some "2025-06-22") w
     = (Raise AttributeError, mkworld [] (stderr w)).
Proof. split; reflexivity. Qed.




(** C6.  On two files, the first holding a record with a numeric timestamp
    and the second a record of 2025-06-22, loading from the files retains
    the second record, while loading the same two records from memory
    raises [AttributeError] and retains nothing. *)
Theorem C6_loads_diverge_on_numeric_timestamp :
  parsed_records PyRef.lib fs_two_files ["a.log"; "b.log"]
    = [PyRef.record_numeric_timestamp; PyRef.record_june_22]
  /\ load_logs PyRef.lib fs_two_files ["a.log"; "b.log"]
       (Some "2025-06-22") empty_world
     = (Ret tt, mkworld [PyRef.record_june_22]
                        [ErrReading "a.log" AttributeError])
  /\ load_logs_from_data PyRef.lib
       [PyRef.record_numeric_timestamp; PyRef.record_june_22]
       (Some "2025-06-22") empty_world
     = (Raise AttributeError, mkworld [] []).
Proof. repeat split; vm_compute; reflexivity. Qed.

(** Where the filter returns on every record and [json.loads] fails with
    decoding errors only, the two ways of loading retain the same
    sequence, and neither raises. *)
Lemma loads_agree_when_filter_returns
    (L : pylib) (fs : filesystem) (paths : list string)
    (f : option string) (w w' : world) :
  Forall (fun p => accessible fs p = true) paths ->
  (forall line e, json_loads L line = Raise e ->
                  issubclass e JSONDecodeError = true) ->
  Forall (fun v => exists b, _should_include_log L v f = Ret b)
         (parsed_records L fs paths) ->
  fst (load_logs L fs paths f w) = Ret tt
  /\ fst (load_logs_from_data L (parsed_records L fs paths) f w') = Ret tt
  /\ logs (snd (load_logs L fs paths f w))
     = logs (snd (load_logs_from_data L (parsed_records L fs paths) f w')).
Proof.
  intros Hacc Hjson Hret.
  rewrite (load_logs_accessible L _ _ _ _ Hacc), load_logs_from_data_scan.
  rewrite (scan_data_returns L f _ Hret). cbn [fst snd logs outcome_of_stop].
  split; [reflexivity|]. split; [reflexivity|]. clear Hacc.
  unfold parsed_records in *. induction paths as [|p rest IH]; [reflexivity|].
  cbn [flat_map] in *. apply Forall_app in Hret as [Hp Hrest].
  rewrite filter_app, <- (IH Hrest). f_equal.
  unfold file_records, scan_file.
  destruct (fs p) as [|e|lines failure|e]; try reflexivity.
  assert (Hl : Forall (fun l => line_fails_as_json_only L f l = true) lines).
  { clear - Hjson Hp. induction lines as [|l ls IHl]; constructor.
    - unfold line_fails_as_json_only, line_outcome_of.
      cbn [flat_map] in Hp. apply Forall_app in Hp as [Hp _].
      unfold parsed_record in Hp.
      destruct (negb (truthy (VStr (strip l)))); [reflexivity|].
      destruct (json_loads L (strip l)) as [v|e] eqn:E.
      + inversion Hp as [|? ? [b Hv] _]; subst. rewrite Hv. now destruct b.
      + now rewrite (Hjson _ _ E).
    - apply IHl. cbn [flat_map] in Hp. now apply Forall_app in Hp as [_ Hp]. }
  destruct (scan_lines_json_only L p f lines Hl 1) as [Hr Hs].
  destruct (scan_lines L p f lines 1) as [[vs ds] stop]. simpl in *. subst.
  now destruct failure.
Qed.

Lemma passing_records_firstn (L : pylib) (f : option string)
    (lines : list string) (k : nat) (v : value) :
  In v (passing_records L f (firstn k lines)) ->
  In v (passing_records L f lines).
Proof.
  unfold passing_records. rewrite !filter_In, !in_flat_map.
  intros [[l [Hl Hv]] Hp]. split; [|assumption].
  exists l. split; [|assumption]. rewrite <- (firstn_skipn k lines).
  apply in_or_app. now left.
Qed.

Lemma loaded_from_input (L : pylib) (c : load_call) (v : value) :
  In v (loaded L c) -> from_input L c v.
Proof.
  destruct c as [fs paths f|data f]; simpl.
  - intros Hin. destruct (scan_paths_in L fs f paths v Hin) as [p [Hp Hv]].
    unfold file_records, scan_file in Hv.
    destruct (fs p) as [|e|lines failure|e] eqn:E; try contradiction.
    exists p, lines, failure. repeat split; try assumption.
    destruct (scan_lines_prefix L p f lines 1) as [k Hk].
    apply (passing_records_firstn L f lines k). rewrite <- Hk.
    destruct (scan_lines L p f lines 1) as [[vs ds] [e|]]; simpl in *;
      [assumption|now destruct failure].
  - apply scan_data_sound.
Qed.

(** C7.  After two consecutive loads the store holds what the second load
    makes of its own input, whatever the first load was and whatever the
    store held before: the same sequence as the second load leaves in an
    empty store, every element of which comes from the second input and
    passes the second filter.  For in-memory records on which the filter
    does not raise it is exactly the records that pass, in their order. *)
Theorem C7_load_replaces_store
    (L : pylib) (c1 c2 : load_call) (w : world) :
  let after := logs (snd (run_load L c2 (snd (run_load L c1 w)))) in
  after = logs (snd (run_load L c2 empty_world))
  /\ after = loaded L c2
  /\ (forall v, In v after -> from_input L c2 v)
  /\ (forall data f,
        c2 = FromData data f ->
        Forall (fun v => filter_safe v = true) data ->
        after = filter (passes L f) data).
Proof.
  cbv zeta. rewrite !run_load_logs.
  split; [reflexivity|]. split; [reflexivity|]. split.
  - apply loaded_from_input.
  - intros data f -> Hsafe. simpl. now rewrite scan_data_safe.
Qed.

Lemma C7_load_replaces_store_witness :
  logs (snd (run_load PyRef.lib
               (FromData [PyRef.record_june_22; record_june_23]
                         (Some "2025-06-23"))
               (snd (run_load PyRef.lib
                       (FromFiles fs_scenario ["a.log"; "b.log"] None)
                       empty_world))))
  = filter (passes PyRef.lib (Some "2025-06-23"))
      [PyRef.record_june_22; record_june_23].
Proof.
  destruct (C7_load_replaces_store PyRef.lib
              (FromFiles fs_scenario ["a.log"; "b.log"] None)
              (FromData [PyRef.record_june_22; record_june_23]
                        (Some "2025-06-23"))
              empty_world) as [_ [_ [_ H]]].
  apply (H _ _ eq_refl). repeat constructor.
Defined.

(** C9.  With the empty string as date filter the predicate returns [True]
    for every value, as it does with no filter, without looking at the
    record.  A non-empty filter that [strptime] rejects never includes a
    record: the predicate returns [False] for every record on which it
    returns at all. *)
Theorem C9_empty_filter_includes_all (L : pylib) (v : value) :
  _should_include_log L v (Some "") = Ret true
  /\ _should_include_log L v (Some "") = _should_include_log L v None
  /\ (forall f, f <> "" -> strptime L f "%Y-%m-%d" = None ->
        _should_include_log L v (Some f) <> Ret true
        /\ (filter_safe v = true ->
            _should_include_log L v (Some f) = Ret false)).
Proof.
  split; [reflexivity|]. split; [reflexivity|].
  intros f Hf Hfmt.
  assert (Hsafe : filter_safe v = true ->
                  _should_include_log L v (Some f) = Ret false).
  { intros Hs. destruct v; try discriminate. simpl in Hs.
    destruct (truthy (dict_get d "@timestamp")) eqn:Ht.
    - destruct (dict_get d "@timestamp") as [| | | |ts| |] eqn:Hget;
        simpl in Ht, Hs; rewrite ?Ht in Hs; try discriminate.
      rewrite (should_include_string_timestamp L d ts f); auto.
      + rewrite Hfmt. now destruct (fromisoformat L _).
      + intros ->. discriminate.
    - now apply should_include_falsy_timestamp. }
  split; [|exact Hsafe].
  destruct (filter_safe v) eqn:Hs.
  - rewrite Hsafe by reflexivity. discriminate.
  - rewrite filter_unsafe_raises by assumption. discriminate.
Qed.

Lemma C9_empty_filter_includes_all_witness :
  _should_include_log PyRef.lib
    (VDict [("@timestamp", VStr "invalid-timestamp")]) (Some "") = Ret true
  /\ _should_include_log PyRef.lib
       (VDict [("@timestamp", VStr "2025-06-22T13:57:32+00:00")])
       (Some "22/06/2025") = Ret false.
Proof.
  split.
  - apply (C9_empty_filter_includes_all PyRef.lib).
  - apply (C9_empty_filter_includes_all PyRef.lib
             (VDict [("@timestamp", VStr "2025-06-22T13:57:32+00:00")])).
    + discriminate.
    + reflexivity.
    + reflexivity.
Defined.

(* ================================================================== *)
(** * Aggregation *)
(* ================================================================== *)

Lemma sys_maxsize_in_range : sys_maxsize < double_int_bound.
Proof. vm_compute. reflexivity. Qed.

Lemma float_of_int_in_range (z : Z) :
  Z.abs z < double_int_bound ->
  float_of_int z = Ret (binary_normalize prec emax z 0 false).
Proof.
  intros H. unfold float_of_int.
  now destruct (Z.ltb_spec (Z.abs z) double_int_bound); [|lia].
Qed.

Lemma one_in_range (z : Z) : 0 <= z <= 1 -> Z.abs z < double_int_bound.
Proof. pose proof sys_maxsize_in_range. unfold sys_maxsize in *. lia. Qed.

(** Adding a number that lies in the range of binary64. *)
Lemma float_add_double (a : float) (r : record) :
  response_time_is_double r = true ->
  is_none (response_time_of r) = false ->
  float_add a (response_time_of r)
    = Ret (SFadd prec emax a (to_float (response_time_of r))).
Proof.
  unfold response_time_is_double. intros Hd Hn.
  destruct (response_time_of r) as [|b|z|f|s|l|d]; try discriminate.
  - simpl. rewrite float_of_int_in_range; [reflexivity|].
    apply one_in_range. destruct b; lia.
  - simpl. rewrite float_of_int_in_range; [reflexivity|].
    now apply Z.ltb_lt.
  - reflexivity.
Qed.

Lemma update_entry_bump (d : stats_dict) (u : string) (r : record) :
  response_time_is_double r = true ->
  is_none (response_time_of r) = false ->
  update_entry d (VStr u) (fun stats =>
      let count' := count stats + 1 in
      total_time' <- float_add (total_time stats) (response_time_of r) ;;
      Ret (mkstats count' total_time'))
  = Ret (bump d u (response_time_of r)).
Proof.
  intros Hd Hn.
  match goal with |- update_entry _ _ ?g = _ => set (f := g) end.
  assert (Hf : forall st, f st = Ret (add_time st (response_time_of r))).
  { intros st. unfold f. cbv zeta. now rewrite float_add_double. }
  clearbody f. induction d as [|[k st] rest IH].
  - simpl. now rewrite Hf.
  - cbn [update_entry bump]. destruct (key_eqb k (VStr u)).
    + now rewrite Hf.
    + now rewrite IH.
Qed.

(** The first loop on a well-formed record is [step]. *)
Lemma aggregate_log_step (d : stats_dict) (r : record) :
  well_formed_record r = true ->
  aggregate_log d (VDict r) = Ret (step d r).
Proof.
  unfold well_formed_record, aggregate_log, step, aggregated.
  intros [Hu Hd]%andb_true_iff. cbn [py_get obind].
  fold (url_of r) (response_time_of r).
  destruct (truthy (url_of r) && negb (is_none (response_time_of r))) eqn:E;
    [|reflexivity].
  apply andb_true_iff in E as [Ht Hn]. apply negb_true_iff in Hn.
  unfold url_is_string_or_absent in Hu.
  destruct (url_of r) as [| | | |u| |]; try discriminate.
  unfold setdefault_update. cbn [hashable].
  now apply update_entry_bump.
Qed.

Lemma aggregate_steps (rs : list record) :
  Forall (fun r => well_formed_record r = true) rs ->
  forall d, aggregate (store_of rs) d = Ret (fold_left step rs d).
Proof.
  induction 1 as [|r rest Hr _ IH]; intros d; [reflexivity|].
  cbn [store_of map aggregate fold_left].
  rewrite aggregate_log_step by assumption. cbn [obind]. apply IH.
Qed.

(** ** Dictionaries with string keys *)

Lemma key_eqb_str (s u : string) : key_eqb (VStr s) (VStr u) = (s =? u)%string.
Proof. reflexivity. Qed.

Lemma bump_good_keys (d : stats_dict) (u : string) (v : value) :
  u <> "" -> Forall good_key d -> Forall good_key (bump d u v).
Proof.
  intros Hu. induction 1 as [|[k st] rest Hk Hrest IH]; simpl.
  - repeat constructor. now exists u.
  - destruct (key_eqb k (VStr u)); constructor;
      try assumption; exact Hk.
Qed.

Lemma bump_keys (d : stats_dict) (u : string) (v : value) (k : value) :
  Forall good_key d ->
  In k (keys (bump d u v)) <-> In k (keys d) \/ k = VStr u.
Proof.
  unfold keys.
  induction 1 as [|[k' st] rest [s [Hs _]] _ IH]; simpl in *.
  - intuition.
  - subst k'. rewrite key_eqb_str.
    destruct (String.eqb_spec s u) as [->|Hne]; simpl.
    + intuition.
    + rewrite IH. intuition.
Qed.

Lemma bump_NoDup (d : stats_dict) (u : string) (v : value) :
  Forall good_key d -> NoDup (keys d) -> NoDup (keys (bump d u v)).
Proof.
  unfold keys.
  induction 1 as [|[k' st] rest [s [Hs Hne]] Hrest IH]; simpl in *; intros Hnd.
  - repeat constructor. intros [].
  - subst k'. rewrite key_eqb_str. inversion Hnd as [|? ? Hnotin Hnd']; subst.
    destruct (String.eqb_spec s u) as [->|Hsu]; simpl.
    + now constructor.
    + constructor; [|now apply IH].
      intros Hin. apply (bump_keys rest u v (VStr s) Hrest) in Hin.
      destruct Hin as [Hin|Heq]; [now apply Hnotin|].
      injection Heq as ->. now apply Hsu.
Qed.

Lemma lookup_bump (d : stats_dict) (u u' : string) (v : value) :
  Forall good_key d ->
  lookup (bump d u v) u' =
    if (u =? u')%string
    then Some (add_time (match lookup d u with
                         | Some st => st
                         | None => default_stats
                         end) v)
    else lookup d u'.
Proof.
  induction 1 as [|[k' st] rest [s [Hs _]] _ IH]; simpl in *.
  - reflexivity.
  - subst k'. rewrite key_eqb_str.
    destruct (String.eqb_spec s u) as [->|Hsu]; simpl.
    + destruct (String.eqb_spec u u'); reflexivity.
    + rewrite IH. destruct (String.eqb_spec s u') as [->|Hsu'].
      * destruct (String.eqb_spec u u'); [congruence|reflexivity].
      * reflexivity.
Qed.

Lemma lookup_In (d : stats_dict) (u : string) (st : stats) :
  Forall good_key d -> NoDup (keys d) ->
  (lookup d u = Some st <-> In (VStr u, st) d).
Proof.
  unfold keys.
  induction 1 as [|[k' st'] rest [s [Hs _]] Hrest IH]; simpl in *; intros Hnd.
  - split; [discriminate|tauto].
  - subst k'. inversion Hnd as [|? ? Hnotin Hnd']; subst.
    destruct (String.eqb_spec s u) as [->|Hsu].
    + split.
      * intros [= ->]. now left.
      * intros [[= ->]|Hin]; [reflexivity|].
        elim Hnotin. apply in_map_iff. now exists (VStr u, st).
    + rewrite (IH Hnd'). split; [now right|].
      intros [[= -> _]|Hin]; [now elim Hsu|assumption].
Qed.

(** ** The first loop as a whole *)

Lemma step_good_keys (d : stats_dict) (r : record) :
  Forall good_key d -> Forall good_key (step d r).
Proof.
  intros Hd. unfold step, aggregated.
  destruct (truthy (url_of r)) eqn:Ht; [|assumption]. simpl.
  destruct (negb (is_none (response_time_of r))); [|assumption].
  destruct (url_of r) as [| | | |u| |]; try assumption.
  apply bump_good_keys; [|assumption].
  simpl in Ht. intros ->. discriminate.
Qed.

Lemma step_NoDup (d : stats_dict) (r : record) :
  Forall good_key d -> NoDup (keys d) -> NoDup (keys (step d r)).
Proof.
  intros Hd Hnd. unfold step.
  destruct (aggregated r); [|assumption].
  destruct (url_of r); try assumption. now apply bump_NoDup.
Qed.

Lemma fold_step_invariant (rs : list record) :
  forall d, Forall good_key d -> NoDup (keys d) ->
            Forall good_key (fold_left step rs d)
            /\ NoDup (keys (fold_left step rs d)).
Proof.
  induction rs as [|r rest IH]; intros d Hd Hnd; [now split|].
  simpl. apply IH; [now apply step_good_keys|now apply step_NoDup].
Qed.

Lemma lookup_step (d : stats_dict) (r : record) (u : string) :
  u <> "" -> Forall good_key d ->
  lookup (step d r) u =
    if contributes u r
    then Some (add_time (match lookup d u with
                         | Some st => st
                         | None => default_stats
                         end) (response_time_of r))
    else lookup d u.
Proof.
  intros Hu Hd. unfold step, aggregated, contributes.
  destruct (url_of r) as [| | | |s| |] eqn:Hurl;
    try (now destruct (truthy _ && _)).
  cbn [truthy].
  destruct (String.eqb_spec s u) as [->|Hsu].
  - destruct (String.eqb_spec u "") as [->|_]; [now elim Hu|].
    cbn [negb andb].
    destruct (negb (is_none (response_time_of r))); [|reflexivity].
    rewrite lookup_bump by assumption. now rewrite String.eqb_refl.
  - cbn [andb].
    destruct (negb (s =? "")%string && negb (is_none (response_time_of r)));
      [|reflexivity].
    rewrite lookup_bump by assumption.
    now destruct (String.eqb_spec s u).
Qed.

Lemma contributions_cons (u : string) (r : record) (rs : list record) :
  contributions u (r :: rs) =
    if contributes u r then response_time_of r :: contributions u rs
    else contributions u rs.
Proof.
  unfold contributions. simpl. now destruct (contributes u r).
Qed.

Lemma lookup_fold_step (u : string) (rs : list record) :
  u <> "" ->
  forall d, Forall good_key d -> NoDup (keys d) ->
    lookup (fold_left step rs d) u
      = accumulate (lookup d u) (contributions u rs).
Proof.
  intros Hu. induction rs as [|r rest IH]; intros d Hd Hnd; [reflexivity|].
  cbn [fold_left]. rewrite IH
    by (try apply step_good_keys; try apply step_NoDup; assumption).
  rewrite lookup_step, contributions_cons by assumption.
  destruct (contributes u r); [|reflexivity].
  unfold accumulate. simpl. now destruct (contributions u rest).
Qed.

Lemma fold_add_time (cs : list value) :
  forall st,
    count (fold_left add_time cs st) = count st + Z.of_nat (length cs)
    /\ total_time (fold_left add_time cs st)
       = fold_left (fun acc v => SFadd prec emax acc (to_float v)) cs
                   (total_time st).
Proof.
  induction cs as [|c rest IH]; intros st.
  - simpl. split; [lia|reflexivity].
  - cbn [fold_left length]. destruct (IH (add_time st c)) as [-> ->].
    simpl. split; [lia|reflexivity].
Qed.

Lemma fold_add_time_default (cs : list value) :
  fold_left add_time cs default_stats
    = mkstats (Z.of_nat (length cs)) (sum_floats cs).
Proof.
  pose proof (fold_add_time cs default_stats) as [Hc Ht].
  destruct (fold_left add_time cs default_stats) as [n t].
  cbn [count total_time default_stats] in Hc, Ht. subst.
  unfold sum_floats. f_equal.
Qed.

(** What the first loop leaves under a key. *)
Lemma entries_of_store (rs : list record) (u : string) (st : stats) :
  In (VStr u, st) (fold_left step rs []) <->
  u <> "" /\ contributions u rs <> []
  /\ st = mkstats (Z.of_nat (length (contributions u rs)))
                  (sum_floats (contributions u rs)).
Proof.
  destruct (fold_step_invariant rs [] (Forall_nil _) (NoDup_nil _))
    as [Hgood Hnd].
  rewrite <- (lookup_In _ u st Hgood Hnd).
  destruct (String.eqb_spec u "") as [->|Hu].
  - split; [|tauto]. intros Hl. exfalso.
    apply (lookup_In _ "" st Hgood Hnd) in Hl.
    rewrite Forall_forall in Hgood.
    destruct (Hgood _ Hl) as [s [Hs Hne]]. simpl in Hs.
    injection Hs as <-. now apply Hne.
  - rewrite lookup_fold_step by (auto; constructor).
    cbn [lookup]. unfold accumulate.
    rewrite <- fold_add_time_default.
    destruct (contributions u rs) as [|c cs] eqn:Hc.
    + split; [discriminate|tauto].
    + split.
      * intros [= <-]. repeat split; try assumption; discriminate.
      * now intros [_ [_ ->]].
Qed.

(* ================================================================== *)
(** * Sorting the items *)
(* ================================================================== *)

Lemma ltb_total (s t : string) :
  s <> t -> String.ltb s t = false -> String.ltb t s = true.
Proof.
  unfold String.ltb. intros Hne. rewrite (String.compare_antisym t s).
  destruct (s ?= t)%string eqn:E; try discriminate; [|reflexivity].
  now apply String.compare_eq_iff in E.
Qed.

Lemma ascii_compare_refl (c : ascii) : Ascii.compare c c = Eq.
Proof. unfold Ascii.compare. apply N.compare_refl. Qed.

Lemma ascii_compare_lt_trans (a b c : ascii) :
  Ascii.compare a b = Lt -> Ascii.compare b c = Lt -> Ascii.compare a c = Lt.
Proof.
  unfold Ascii.compare. rewrite !N.compare_lt_iff. apply N.lt_trans.
Qed.

Lemma string_compare_lt_trans (s : string) :
  forall t u, (s ?= t)%string = Lt -> (t ?= u)%string = Lt ->
              (s ?= u)%string = Lt.
Proof.
  induction s as [|a s IH]; intros [|b t] [|c u]; simpl;
    try discriminate; try reflexivity.
  destruct (Ascii.compare a b) eqn:Hab; try discriminate;
    destruct (Ascii.compare b c) eqn:Hbc; try discriminate; intros Hst Htu.
  - apply Ascii.compare_eq_iff in Hab, Hbc. subst.
    rewrite ascii_compare_refl. now apply (IH t).
  - apply Ascii.compare_eq_iff in Hab. subst. now rewrite Hbc.
  - apply Ascii.compare_eq_iff in Hbc. subst. now rewrite Hab.
  - now rewrite (ascii_compare_lt_trans a b c).
Qed.

Lemma ltb_trans (s t u : string) :
  String.ltb s t = true -> String.ltb t u = true -> String.ltb s u = true.
Proof.
  unfold String.ltb. intros Hst Htu.
  rewrite (string_compare_lt_trans s t u); [reflexivity| |].
  - now destruct (s ?= t)%string.
  - now destruct (t ?= u)%string.
Qed.

Lemma row_before_trans (a b c : row) :
  row_before a b -> row_before b c -> row_before a c.
Proof.
  unfold row_before.
  destruct (row_url a), (row_url b), (row_url c); try contradiction.
  apply ltb_trans.
Qed.

Lemma item_lt_strings (s t : string) (a b : stats) :
  s <> t -> item_lt (VStr s, a) (VStr t, b) = Ret (String.ltb s t).
Proof.
  intros Hne. unfold item_lt. cbn [fst snd]. rewrite key_eqb_str.
  now destruct (String.eqb_spec s t).
Qed.

(** Inserting an item with a new string key into sorted items. *)
Lemma insert_item_sorted (s : string) (st : stats) (l : stats_dict) :
  Forall good_key l -> ~ In (VStr s) (keys l) -> Sorted item_before l ->
  exists l',
    insert_item (VStr s, st) l = Ret l'
    /\ Permutation ((VStr s, st) :: l) l'
    /\ Sorted item_before l'
    /\ (forall y, item_before y (VStr s, st) -> HdRel item_before y l ->
                  HdRel item_before y l').
Proof.
  induction 1 as [|[k b] rest [t [Ht _]] Hrest IH]; intros Hnotin Hsorted.
  - exists [(VStr s, st)]. repeat split; auto.
  - cbn [fst] in Ht. subst k. cbn [insert_item].
    assert (Hne : s <> t).
    { intros ->. apply Hnotin. now left. }
    rewrite item_lt_strings by assumption. cbn [obind].
    inversion Hsorted as [|? ? Hs' Hhd]; subst.
    destruct (String.ltb s t) eqn:Hlt.
    + exists ((VStr s, st) :: (VStr t, b) :: rest). repeat split; auto.
    + destruct IH as [l' [Hins [Hperm [Hsort Hhd']]]]; try assumption.
      { intros Hin. apply Hnotin. now right. }
      rewrite Hins. cbn [obind].
      exists ((VStr t, b) :: l'). repeat split.
      * apply perm_trans with ((VStr t, b) :: (VStr s, st) :: rest);
          [apply perm_swap|now apply perm_skip].
      * constructor; [assumption|]. apply Hhd'; [|assumption].
        unfold item_before. cbn [fst]. now apply ltb_total.
      * intros y Hy Hyhd. constructor. now inversion Hyhd.
Qed.

Lemma Permutation_good_keys (l l' : stats_dict) :
  Permutation l l' -> Forall good_key l -> Forall good_key l'.
Proof.
  intros Hp Hl. rewrite Forall_forall in *. intros x Hx.
  apply Hl. now apply (Permutation_in _ (Permutation_sym Hp)).
Qed.

(** Sorting a dictionary with distinct string keys. *)
Lemma sorted_string_keys (d : stats_dict) :
  Forall good_key d -> NoDup (keys d) ->
  exists items,
    sorted d = Ret items /\ Permutation d items
    /\ Sorted item_before items.
Proof.
  induction 1 as [|[k st] rest [s [Hs Hne]] Hrest IH]; intros Hnd.
  - exists []. repeat split; auto.
  - cbn [fst] in Hs. subst k. unfold keys in Hnd. cbn [map fst] in Hnd.
    inversion Hnd as [|? ? Hnotin Hnd']; subst.
    destruct (IH Hnd') as [items [Hsorted [Hperm Hsort]]].
    cbn [sorted]. rewrite Hsorted. cbn [obind].
    destruct (insert_item_sorted s st items) as [l' [Hins [Hp' [Hs' _]]]].
    + now apply (Permutation_good_keys rest).
    + intros Hin. apply Hnotin. unfold keys in Hin.
      now apply (Permutation_in _ (Permutation_map fst (Permutation_sym Hperm))).
    + assumption.
    + exists l'. repeat split; try assumption.
      apply perm_trans with ((VStr s, st) :: items); [|assumption].
      now apply perm_skip.
Qed.

(* ================================================================== *)
(** * The rows *)
(* ================================================================== *)

Lemma make_rows_map (items : stats_dict) :
  Forall (fun kv => 1 <= count (snd kv) <= sys_maxsize) items ->
  make_rows items = Ret (map row_of items).
Proof.
  induction 1 as [|[k st] rest [Hlo Hhi] _ IH]; [reflexivity|].
  cbn [make_rows map snd] in *. unfold float_truediv_int.
  rewrite float_of_int_in_range
    by (pose proof sys_maxsize_in_range; lia).
  cbn [obind]. destruct (Z.eqb_spec (count st) 0); [lia|].
  cbn [obind]. rewrite IH. reflexivity.
Qed.

Lemma contributions_length (u : string) (rs : list record) :
  (length (contributions u rs) <= length rs)%nat.
Proof.
  unfold contributions. rewrite length_map. apply filter_length_le.
Qed.

(** The whole of [generate_average_report] on a well-formed store. *)
Lemma report_of_store (rs : list record) :
  Forall (fun r => well_formed_record r = true) rs ->
  Z.of_nat (length rs) <= sys_maxsize ->
  exists d items,
    aggregate (store_of rs) [] = Ret d
    /\ (forall u st, In (VStr u, st) d <->
          u <> "" /\ contributions u rs <> []
          /\ st = mkstats (Z.of_nat (length (contributions u rs)))
                          (sum_floats (contributions u rs)))
    /\ Forall key_is_string d
    /\ Forall (fun kv => 1 <= count (snd kv)) d
    /\ sorted d = Ret items
    /\ Permutation d items
    /\ Sorted item_before items
    /\ make_rows items = Ret (map row_of items)
    /\ generate_average_report (store_of rs) = Ret (map row_of items)
    /\ NoDup (keys d).
Proof.
  intros Hwf Hlen.
  destruct (fold_step_invariant rs [] (Forall_nil _) (NoDup_nil _))
    as [Hgood Hnd].
  destruct (sorted_string_keys _ Hgood Hnd) as [items [Hsorted [Hperm Hsort]]].
  assert (Hcount : Forall (fun kv => 1 <= count (snd kv) <= sys_maxsize)
                          (fold_left step rs [])).
  { rewrite Forall_forall in *. intros [k st] Hin.
    destruct (Hgood _ Hin) as [u [Hu _]]. cbn [fst snd] in *. subst k.
    apply entries_of_store in Hin as [_ [Hc ->]]. cbn [count].
    pose proof (contributions_length u rs).
    destruct (contributions u rs); [congruence|]. simpl length in *. lia. }
  assert (Hrows : make_rows items = Ret (map row_of items)).
  { apply make_rows_map. rewrite Forall_forall in *. intros x Hx.
    apply Hcount. now apply (Permutation_in _ (Permutation_sym Hperm)). }
  exists (fold_left step rs []), items.
  split; [now apply aggregate_steps|].
  split; [intros u st; apply entries_of_store|].
  split.
  { rewrite Forall_forall in *. intros x Hx.
    destruct (Hgood _ Hx) as [u [Hu _]]. now exists u. }
  split.
  { rewrite Forall_forall in *. intros x Hx. now apply Hcount. }
  repeat split; try assumption.
  unfold generate_average_report.
  rewrite aggregate_steps by assumption. cbn [obind].
  rewrite Hsorted. cbn [obind]. exact Hrows.
Qed.

Lemma row_urls_of_items (items : stats_dict) :
  map row_url (map row_of items) = keys items.
Proof. unfold keys. rewrite map_map. reflexivity. Qed.

(* ================================================================== *)
(** * Formatting *)
(* ================================================================== *)

Lemma string_length_app (s t : string) :
  String.length (s ++ t) = (String.length s + String.length t)%nat.
Proof. induction s as [|c s IH]; simpl; [reflexivity|now rewrite IH]. Qed.

Lemma all_digits_uint (d : Decimal.uint) :
  all_digits (NilEmpty.string_of_uint d) = true.
Proof. induction d; simpl; auto. Qed.

Lemma decimal_digits (n : Z) :
  decimal n <> "" /\ all_digits (decimal n) = true.
Proof.
  unfold decimal, NilZero.string_of_uint.
  destruct (N.to_uint (Z.to_N n)) eqn:E;
    try (split; [discriminate|]; rewrite <- ?E; apply all_digits_uint).
  split; [discriminate|reflexivity].
Qed.

Lemma is_digit_digit (k : Z) : 0 <= k < 10 -> is_digit (digit k) = true.
Proof.
  intros H.
  assert (C : k = 0 \/ k = 1 \/ k = 2 \/ k = 3 \/ k = 4 \/ k = 5 \/ k = 6
              \/ k = 7 \/ k = 8 \/ k = 9) by lia.
  repeat (destruct C as [-> | C]; [reflexivity|]). now subst.
Qed.

(** A finite float is printed in fixed-point notation, with exactly three
    decimal digits. *)
Lemma format_3f_finite (x : float) :
  float_is_finite x = true -> fixed_point_3 (format_3f x).
Proof.
  destruct x as [s|s| |s m e]; try discriminate; intros _.
  - exists (sign_prefix s), "0", "000". repeat split; try discriminate.
    destruct s; auto.
  - cbn [format_3f].
    exists (sign_prefix s), (decimal (thousandths m e / 1000)).
    eexists. split; [reflexivity|].
    destruct (decimal_digits (thousandths m e / 1000)) as [Hne Hd].
    repeat split; try assumption.
    + destruct s; auto.
    + cbn [all_digits].
      rewrite !is_digit_digit by (apply Z.mod_pos_bound; lia). reflexivity.
Qed.

(** Infinities and NaN are printed by name. *)
Lemma format_3f_not_finite (x : float) :
  float_is_finite x = false ->
  format_3f x = "nan" \/ format_3f x = "inf" \/ format_3f x = "-inf".
Proof.
  destruct x as [s|s| |s m e]; try discriminate; intros _.
  - destruct s; auto.
  - auto.
Qed.

Lemma fixed_point_3_length (s : string) :
  fixed_point_3 s -> (5 <= String.length s)%nat.
Proof.
  intros [sign [ip [fp [-> [_ [Hne [_ [Hlen _]]]]]]]].
  rewrite !string_length_app, Hlen.
  destruct ip; [congruence|]. simpl. lia.
Qed.

Lemma Sorted_rows (items : stats_dict) :
  Sorted item_before items -> StronglySorted row_before (map row_of items).
Proof.
  intros H. apply Sorted_StronglySorted.
  - intros a b c. apply row_before_trans.
  - induction H as [|a l _ IH Hhd]; [constructor|].
    cbn [map]. constructor; [assumption|].
    destruct Hhd as [|b l Hab]; constructor. exact Hab.
Qed.

Lemma contributions_nonempty (u : string) (rs : list record) :
  contributions u rs <> [] <->
  exists r, In r rs /\ url_of r = VStr u /\ response_time_of r <> VNone.
Proof.
  unfold contributions. split.
  - destruct (filter (contributes u) rs) as [|r l] eqn:E; [now intros []|].
    intros _. assert (Hin : In r (filter (contributes u) rs))
      by (rewrite E; now left).
    apply filter_In in Hin as [Hin Hc]. exists r. split; [assumption|].
    unfold contributes in Hc. destruct (url_of r); try discriminate.
    apply andb_true_iff in Hc as [Hs Hn]. apply String.eqb_eq in Hs. subst.
    split; [reflexivity|]. intros Hnone. now rewrite Hnone in Hn.
  - intros [r [Hin [Hu Hn]]] Hnil.
    assert (Hf : In r (filter (contributes u) rs)).
    { apply filter_In. split; [assumption|]. unfold contributes.
      rewrite Hu, String.eqb_refl. now destruct (response_time_of r). }
    destruct (filter (contributes u) rs); [contradiction|discriminate].
Qed.

(* ================================================================== *)
(** * The statistics and the report: the properties *)
(* ================================================================== *)

(** C4 (amended).  On a store whose url values are strings (or null or
    absent) and whose response times are null, floats, bools or ints in
    the range of a double, [generate_average_report] returns rows such
    that: there is a row for a url iff the url is not empty and some
    record has that url and a response time that is not null, and then
    there is one row only; the count of
    a row is the number of these records, and is at least one; its average
    is the sum of their response times, added from the left in binary64,
    divided by the count and printed with [.3f]. *)
Theorem C4_rows_are_the_contributing_urls (rs : list record) :
  Forall (fun r => well_formed_record r = true) rs ->
  Z.of_nat (length rs) <= sys_maxsize ->
  exists rows,
    generate_average_report (store_of rs) = Ret rows
    /\ (forall u,
          (exists r, In r rows /\ row_url r = VStr u) <->
          (u <> "" /\ exists r, In r rs /\ url_of r = VStr u
                                /\ response_time_of r <> VNone))
    /\ NoDup (map row_url rows)
    /\ (forall r, In r rows ->
          exists u,
            row_url r = VStr u
            /\ row_total r = Z.of_nat (length (contributions u rs))
            /\ 1 <= row_total r
            /\ row_avg r = format_3f (average_of u rs)).
Proof.
  intros Hwf Hlen.
  destruct (report_of_store rs Hwf Hlen)
    as [d [items [_ [Hd [Hstr [Hcount [_ [Hperm [_ [_ [Hrep Hnd]]]]]]]]]]].
  exists (map row_of items). split; [assumption|]. split; [|split].
  2:{ rewrite row_urls_of_items.
      apply (Permutation_NoDup (Permutation_map fst Hperm)). exact Hnd. }
  - intros u. rewrite <- contributions_nonempty. split.
    + intros [r [Hin Hu]]. apply in_map_iff in Hin as [[k st] [<- Hin]].
      cbn [row_of row_url fst] in Hu. subst k.
      apply (Permutation_in _ (Permutation_sym Hperm)) in Hin.
      apply Hd in Hin. tauto.
    + intros [Hu Hc].
      exists (row_of (VStr u, mkstats (Z.of_nat (length (contributions u rs)))
                                      (sum_floats (contributions u rs)))).
      split; [|reflexivity]. apply in_map.
      apply (Permutation_in _ Hperm). apply Hd. tauto.
  - intros r Hin. apply in_map_iff in Hin as [[k st] [<- Hin]].
    apply (Permutation_in _ (Permutation_sym Hperm)) in Hin.
    rewrite Forall_forall in Hstr, Hcount.
    destruct (Hstr _ Hin) as [u Hu]. cbn [fst] in Hu. subst k.
    exists u. pose proof (Hcount _ Hin) as Hone. cbn [snd] in Hone.
    apply Hd in Hin as [_ [_ ->]].
    repeat split; try assumption.
Qed.

Lemma C4_rows_are_the_contributing_urls_witness :
  generate_average_report
    (store_of [record_a (VFloat (PyRef.ratio 1 10));
               record_a (VFloat (PyRef.ratio 3 10))])
  = Ret [mkrow (VStr "/a") 2 "0.200"].
Proof.
  destruct (C4_rows_are_the_contributing_urls
              [record_a (VFloat (PyRef.ratio 1 10));
               record_a (VFloat (PyRef.ratio 3 10))])
    as [rows [H _]].
  - repeat constructor.
  - vm_compute. discriminate.
  - rewrite H. vm_compute in H. injection H as <-. reflexivity.
Defined.

(** C4, as stated, fails: a record with the empty url and a response time
    yields no row for that url; and a response time that is no number, a
    url that cannot be hashed, or an integer beyond the doubles, yields no
    rows at all. *)
Lemma C4_empty_url_counterexample :
  contributes "" [("url", VStr ""); ("response_time", VInt 1)] = true
  /\ generate_average_report
       (store_of [[("url", VStr ""); ("response_time", VInt 1)]]) = Ret []
  /\ contributes "/a" (record_a (VStr "fast")) = true
  /\ generate_average_report (store_of [record_a (VStr "fast")])
     = Raise TypeError
  /\ generate_average_report
       (store_of [[("url", VList [VStr "/a"]); ("response_time", VInt 1)]])
     = Raise TypeError
  /\ generate_average_report (store_of [record_a (VInt (2 ^ 1024))])
     = Raise OverflowError.
Proof. repeat split; vm_compute; reflexivity. Qed.

(** C5 (amended).  On a store whose url values are strings (or null or
    absent) and whose response times are null, floats, bools or ints in
    the range of a double, [generate_average_report] returns its rows in
    strictly ascending order of url (the url of a row is below the url of
    every later row), strings being compared lexicographically by code
    point; and the average of a row is printed with
    exactly three decimal digits in fixed-point notation whenever it is
    finite, an infinite or undefined average being printed as [inf],
    [-inf] or [nan]. *)
Theorem C5_rows_sorted_and_three_decimals (rs : list record) :
  Forall (fun r => well_formed_record r = true) rs ->
  Z.of_nat (length rs) <= sys_maxsize ->
  exists rows,
    generate_average_report (store_of rs) = Ret rows
    /\ StronglySorted row_before rows
    /\ (forall r, In r rows ->
          exists u,
            row_url r = VStr u
            /\ row_avg r = format_3f (average_of u rs)
            /\ (float_is_finite (average_of u rs) = true ->
                fixed_point_3 (row_avg r))
            /\ (float_is_finite (average_of u rs) = false ->
                row_avg r = "nan" \/ row_avg r = "inf"
                \/ row_avg r = "-inf")).
Proof.
  intros Hwf Hlen.
  destruct (report_of_store rs Hwf Hlen)
    as [d [items [_ [Hd [Hstr [_ [_ [Hperm [Hsort [_ [Hrep _]]]]]]]]]]].
  exists (map row_of items). split; [assumption|].
  split; [now apply Sorted_rows|].
  intros r Hin. apply in_map_iff in Hin as [[k st] [<- Hin]].
  apply (Permutation_in _ (Permutation_sym Hperm)) in Hin.
  rewrite Forall_forall in Hstr.
  destruct (Hstr _ Hin) as [u Hu]. cbn [fst] in Hu. subst k.
  exists u. apply Hd in Hin as [_ [_ ->]].
  split; [reflexivity|]. split; [reflexivity|]. split.
  - apply format_3f_finite.
  - apply format_3f_not_finite.
Qed.

Lemma C5_rows_sorted_and_three_decimals_witness :
  exists rows,
    generate_average_report
      (store_of [record_of "/b" (VInt 3);
                 record_of "/a" (VFloat (PyRef.ratio 1 10));
                 record_of "/a" (VFloat (PyRef.ratio 3 10))])
    = Ret rows
    /\ StronglySorted row_before rows.
Proof.
  destruct (C5_rows_sorted_and_three_decimals
              [record_of "/b" (VInt 3);
               record_of "/a" (VFloat (PyRef.ratio 1 10));
               record_of "/a" (VFloat (PyRef.ratio 3 10))])
    as [rows [H1 [H2 _]]].
  - repeat constructor.
  - vm_compute. discriminate.
  - exists rows. split; assumption.
Defined.

(** C5, as stated, fails: a response time that is infinite (the JSON text
    [1e999], or [Infinity]) gives an average that is printed as [inf],
    which has no decimal digits; so does the sum of two finite response
    times that overflows.  With a response time that is no number there
    are no rows. *)
Lemma C5_infinite_average_counterexample :
  generate_average_report
    (store_of [record_of "/a" (VFloat (S754_infinity false))])
  = Ret [mkrow (VStr "/a") 1 "inf"]
  /\ generate_average_report
       (store_of [record_of "/a" (VFloat (PyRef.ratio (2 ^ 1023) 1));
                  record_of "/a" (VFloat (PyRef.ratio (2 ^ 1023) 1))])
     = Ret [mkrow (VStr "/a") 2 "inf"]
  /\ ~ fixed_point_3 "inf"
  /\ generate_average_report (store_of [record_of "/a" (VStr "fast")])
     = Raise TypeError.
Proof.
  split; [reflexivity|]. split; [vm_compute; reflexivity|].
  split; [|reflexivity].
  intros H. apply fixed_point_3_length in H. simpl in H. lia.
Qed.

(** A record that does not take part leaves the dictionary as it is. *)
Lemma aggregate_log_skips (d : stats_dict) (r : record) :
  aggregated r = false -> aggregate_log d (VDict r) = Ret d.
Proof.
  unfold aggregated, aggregate_log, url_of, response_time_of.
  intros H. cbn [py_get obind]. now rewrite H.
Qed.

Lemma aggregate_nothing (rs : list record) (d : stats_dict) :
  Forall (fun r => aggregated r = false) rs ->
  aggregate (store_of rs) d = Ret d.
Proof.
  induction 1 as [|r rest Hr _ IH]; [reflexivity|].
  cbn [store_of map aggregate]. rewrite aggregate_log_skips by assumption.
  exact IH.
Qed.

(** C8.  On a store of records none of which has both a url that is truthy
    (so in particular not empty) and a response time that is not null,
    whatever else the records hold, [generate_average_report] returns the
    empty list, and [generate_report] on [average] returns the text
    [No data found for the specified criteria.] *)
Theorem C8_nothing_to_aggregate (L : pylib) (rs : list record) :
  Forall (fun r => aggregated r = false) rs ->
  generate_average_report (store_of rs) = Ret []
  /\ generate_report L (store_of rs) "average"
     = Ret (Some "No data found for the specified criteria.").
Proof.
  intros H.
  assert (E : generate_average_report (store_of rs) = Ret []).
  { unfold generate_average_report. now rewrite aggregate_nothing. }
  split; [exact E|].
  unfold generate_report. cbn [String.eqb Ascii.eqb Bool.eqb].
  now rewrite E.
Qed.

Lemma C8_nothing_to_aggregate_witness :
  generate_report PyRef.lib
    (store_of [[("url", VStr "/api/test2")];
               [("response_time", VFloat (PyRef.ratio 2 10))];
               [("url", VStr ""); ("response_time", VInt 1)];
               [("url", VList []); ("response_time", VStr "fast")]])
    "average"
  = Ret (Some "No data found for the specified criteria.").
Proof.
  apply (C8_nothing_to_aggregate PyRef.lib). repeat constructor.
Defined.

(** C10 (amended).  On a store whose url values are strings (or null or
    absent) and whose response times are null, floats, bools or ints in
    the range of a double ([abs n < 2^1024 - 2^970]),
    [generate_average_report] and [generate_report] on [average] return:
    the first loop ends with a dictionary whose keys are all strings and
    whose counts are all at least one, the sort returns a permutation of
    its items, every division has a count that is not zero, and the report
    is a text. *)
Theorem C10_report_is_total (L : pylib) (rs : list record) :
  Forall (fun r => well_formed_record r = true) rs ->
  Z.of_nat (length rs) <= sys_maxsize ->
  exists d items rows text,
    aggregate (store_of rs) [] = Ret d
    /\ Forall key_is_string d
    /\ Forall (fun kv => 1 <= count (snd kv)) d
    /\ sorted d = Ret items
    /\ Permutation d items
    /\ make_rows items = Ret rows
    /\ generate_average_report (store_of rs) = Ret rows
    /\ generate_report L (store_of rs) "average" = Ret (Some text).
Proof.
  intros Hwf Hlen.
  destruct (report_of_store rs Hwf Hlen)
    as [d [items [Hagg [_ [Hstr [Hcount [Hsorted [Hperm [_ [Hrows [Hrep _]]]]]]]]]]].
  exists d, items, (map row_of items).
  exists (match map row_of items with
          | [] => "No data found for the specified criteria."
          | rows => tabulate L rows headers
          end).
  repeat split; try assumption.
  unfold generate_report. cbn [String.eqb Ascii.eqb Bool.eqb].
  rewrite Hrep. cbn [obind]. now destruct (map row_of items).
Qed.

Lemma C10_report_is_total_witness :
  exists text,
    generate_report PyRef.lib
      (store_of [record_of "/b" (VInt 3);
                 record_of "/a" (VFloat (PyRef.ratio 1 10));
                 [("status", VInt 200)];
                 record_of "/a" (VBool true)])
      "average"
    = Ret (Some text).
Proof.
  destruct (C10_report_is_total PyRef.lib
              [record_of "/b" (VInt 3);
               record_of "/a" (VFloat (PyRef.ratio 1 10));
               [("status", VInt 200)];
               record_of "/a" (VBool true)])
    as [d [items [rows [text H]]]].
  - repeat constructor.
  - vm_compute. discriminate.
  - exists text. apply H.
Defined.

(** C10, as stated, fails: the integer [2^1024] is a number, and adding it
    to the total raises [OverflowError]. *)
Lemma C10_huge_int_counterexample :
  url_is_string_or_absent (record_of "/a" (VInt (2 ^ 1024))) = true
  /\ response_time_is_numeric (record_of "/a" (VInt (2 ^ 1024))) = true
  /\ generate_average_report (store_of [record_of "/a" (VInt (2 ^ 1024))])
     = Raise OverflowError
  /\ generate_report PyRef.lib
       (store_of [record_of "/a" (VInt (2 ^ 1024))]) "average"
     = Raise OverflowError.
Proof. repeat split; vm_compute; reflexivity. Qed.

(* ================================================================== *)
(** * The scenarios of the specification and of the tests *)
(* ================================================================== *)

(** Scenario A: two records of [/a] with 0.1 and 0.3. *)
Example scenario_A :
  generate_average_report
    (store_of [record_of "/a" (VFloat (PyRef.ratio 1 10));
               record_of "/a" (VFloat (PyRef.ratio 3 10))])
  = Ret [mkrow (VStr "/a") 2 "0.200"].
Proof. vm_compute. reflexivity. Qed.

(** Scenario B: the empty store. *)
Example scenario_B :
  generate_average_report [] = Ret []
  /\ generate_report PyRef.lib [] "average"
     = Ret (Some "No data found for the specified criteria.").
Proof. split; reflexivity. Qed.

(** Scenario C: the filter on the day of the timestamp and on the next. *)
Example scenario_C :
  _should_include_log PyRef.lib PyRef.record_june_22 (Some "2025-06-22")
    = Ret true
  /\ _should_include_log PyRef.lib PyRef.record_june_22 (Some "2025-06-23")
     = Ret false.
Proof. split; vm_compute; reflexivity. Qed.

(** Scenario D: a record, a blank line and a malformed line. *)
Example scenario_D :
  load_logs PyRef.lib
    (fun _ => Readable [PyRef.line_june_22; ""; "invalid json line"] None)
    ["a.log"] None empty_world
  = (Ret tt, mkworld [PyRef.record_june_22] [WarnInvalidJson "a.log" 3]).
Proof. vm_compute. reflexivity. Qed.

(** Scenario E: a report kind that is not known. *)
Example scenario_E (L : pylib) (logs : list value) :
  generate_report L logs "unknown" = Ret None.
Proof. reflexivity. Qed.

(** [test_generate_average_report]: two urls, unsorted input. *)
Example test_generate_average_report :
  generate_average_report
    (store_of [record_of "/api/test2" (VFloat (PyRef.ratio 2 10));
               record_of "/api/test1" (VFloat (PyRef.ratio 1 10));
               record_of "/api/test1" (VFloat (PyRef.ratio 3 10));
               record_of "/api/test2" (VFloat (PyRef.ratio 4 10))])
  = Ret [mkrow (VStr "/api/test1") 2 "0.200";
         mkrow (VStr "/api/test2") 2 "0.300"].
Proof. vm_compute. reflexivity. Qed.

(** [test_generate_average_report_missing_fields] *)
Example test_generate_average_report_missing_fields :
  generate_average_report
    (store_of [record_of "/api/test1" (VFloat (PyRef.ratio 1 10));
               [("url", VStr "/api/test2")];
               [("response_time", VFloat (PyRef.ratio 2 10))];
               record_of "/api/test3" (VFloat (PyRef.ratio 3 10))])
  = Ret [mkrow (VStr "/api/test1") 1 "0.100";
         mkrow (VStr "/api/test3") 1 "0.300"].
Proof. vm_compute. reflexivity. Qed.

(** [test_date_filtering_invalid_timestamp] *)
Example test_date_filtering_invalid_timestamp :
  _should_include_log PyRef.lib
    (VDict [("@timestamp", VStr "invalid-timestamp"); ("url", VStr "/api/test")])
    (Some "2025-06-22")
  = Ret false.
Proof. vm_compute. reflexivity. Qed.

(* ================================================================== *)
(** * Further properties of the filter *)
(* ================================================================== *)

(** What a [True] of the filter under a date tells about the record. *)
Lemma should_include_true_dated (L : pylib) (v : value) (f : string) :
  f <> "" -> _should_include_log L v (Some f) = Ret true -> dated L f v.
Proof.
  intros Hf Htrue.
  destruct (filter_safe v) eqn:Hsafe;
    [|rewrite filter_unsafe_raises in Htrue by assumption; discriminate].
  destruct v as [| | | | | |d]; try discriminate. simpl in Hsafe.
  destruct (truthy (dict_get d "@timestamp")) eqn:Ht;
    [|rewrite should_include_falsy_timestamp in Htrue by assumption;
      discriminate].
  destruct (dict_get d "@timestamp") as [| | | |ts| |] eqn:Hget;
    simpl in Ht, Hsafe; rewrite ?Ht in Hsafe; try discriminate.
  assert (Hts : ts <> "") by (intros ->; discriminate).
  rewrite (should_include_string_timestamp L d ts f Hf Hts Hget) in Htrue.
  destruct (fromisoformat L _) as [log_dt|] eqn:Hiso; [|discriminate].
  destruct (strptime L f _) as [filter_dt|] eqn:Hfmt; [|discriminate].
  exists d, ts, log_dt, filter_dt. repeat split; try assumption.
  apply date_eqb_eq. now injection Htrue.
Qed.

(** X1.  After a load with a non-empty date filter, from files or from
    memory, every record of the store is a dict whose [@timestamp] is a
    non-empty string that [fromisoformat] parses (each [Z] replaced by
    [+00:00]) to a datetime of the date the filter parses to; in
    particular the filter itself parses. *)
Theorem X1_store_holds_dated_records
    (L : pylib) (c : load_call) (f : string) (w : world) (v : value) :
  f <> "" ->
  (exists fs paths, c = FromFiles fs paths (Some f))
  \/ (exists data, c = FromData data (Some f)) ->
  In v (logs (snd (run_load L c w))) -> dated L f v.
Proof.
  intros Hf Hc Hin. rewrite run_load_logs in Hin.
  apply loaded_from_input in Hin.
  destruct Hc as [[fs [paths ->]]|[data ->]]; simpl in Hin.
  - destruct Hin as [p [lines [failure [_ [_ Hv]]]]].
    unfold passing_records in Hv. apply filter_In in Hv as [_ Hv].
    unfold passes in Hv. apply should_include_true_dated; [assumption|].
    destruct (_should_include_log L v (Some f)) as [[|]|]; congruence.
  - now apply should_include_true_dated.
Qed.

Lemma X1_store_holds_dated_records_witness :
  dated PyRef.lib "2025-06-22" PyRef.record_june_22.
Proof.
  apply (X1_store_holds_dated_records PyRef.lib
           (FromData [record_june_23; PyRef.record_june_22]
                     (Some "2025-06-22"))
           "2025-06-22" empty_world).
  - discriminate.
  - right. now exists [record_june_23; PyRef.record_june_22].
  - vm_compute. left. reflexivity.
Defined.

(** X2.  The filter raises in one way only: [AttributeError], under a
    non-empty date filter, on a value that is no dict or whose
    [@timestamp] is truthy and no string.  In every other case it
    returns. *)
Theorem X2_filter_raises_iff
    (L : pylib) (v : value) (f : option string) (e : exn) :
  _should_include_log L v f = Raise e <->
  (exists s, f = Some s /\ s <> "") /\ filter_safe v = false
  /\ e = AttributeError.
Proof.
  split.
  - intros Hr. destruct (filter_safe v) eqn:Hsafe.
    + destruct (filter_safe_returns L v f Hsafe) as [b Hb]. congruence.
    + destruct f as [s|]; [|discriminate].
      destruct (String.eqb_spec s "") as [->|Hs]; [discriminate|].
      rewrite filter_unsafe_raises in Hr by assumption.
      injection Hr as <-. repeat split. now exists s.
  - intros [[s [-> Hs]] [Hsafe ->]]. now apply filter_unsafe_raises.
Qed.

Lemma X2_filter_raises_iff_witness :
  filter_safe (VDict [("@timestamp", VBool true)]) = false
  /\ _should_include_log PyRef.lib (VDict [("@timestamp", VBool true)])
       (Some "2025-06-22") = Raise AttributeError.
Proof.
  split; [reflexivity|].
  apply (X2_filter_raises_iff PyRef.lib). repeat split.
  exists "2025-06-22". split; [reflexivity|discriminate].
Defined.

(** The filter looks at [@timestamp] only: two dicts with the same
    [@timestamp] get the same answer, whatever their other keys. *)
Lemma filter_reads_timestamp_only
    (L : pylib) (d1 d2 : record) (f : option string) :
  dict_get d1 "@timestamp" = dict_get d2 "@timestamp" ->
  _should_include_log L (VDict d1) f = _should_include_log L (VDict d2) f.
Proof.
  intros H. unfold _should_include_log. destruct f as [s|]; [|reflexivity].
  destruct (negb (truthy (VStr s))); [reflexivity|].
  cbn [py_get obind]. now rewrite H.
Qed.

Lemma replace_no_Z (new s : string) :
  has_no_Z s = true -> replace "Z" new s = s.
Proof.
  induction s as [|c s IH]; [reflexivity|]. cbn [has_no_Z replace].
  intros [Hc Hs]%andb_true_iff. apply negb_true_iff in Hc. rewrite Hc.
  now rewrite IH.
Qed.

Lemma replace_app (new s t : string) :
  replace "Z" new (s ++ t) = replace "Z" new s ++ replace "Z" new t.
Proof.
  induction s as [|c s IH]; [reflexivity|]. cbn [append replace].
  rewrite IH. destruct (c =? "Z")%char; [|reflexivity].
  generalize (replace "Z" new s) (replace "Z" new t). clear.
  intros a b. induction new as [|x new IH]; [reflexivity|].
  cbn [append]. now rewrite IH.
Qed.

Lemma append_nonempty (s t : string) : t <> "" -> s ++ t <> "".
Proof.
  intros Ht. destruct s; [exact Ht|discriminate].
Qed.

(** X3.  A timestamp that ends in [Z] and the same timestamp ending in
    [+00:00] get the same answer from the filter, under every date
    filter, whatever else the two records hold. *)
Theorem X3_trailing_Z_is_utc_offset
    (L : pylib) (d1 d2 : record) (s : string) (f : option string) :
  has_no_Z s = true ->
  dict_get d1 "@timestamp" = VStr (s ++ "Z") ->
  dict_get d2 "@timestamp" = VStr (s ++ "+00:00") ->
  _should_include_log L (VDict d1) f = _should_include_log L (VDict d2) f.
Proof.
  intros Hs H1 H2. destruct f as [f|]; [|reflexivity].
  destruct (String.eqb_spec f "") as [->|Hf]; [reflexivity|].
  rewrite (should_include_string_timestamp L d1 (s ++ "Z") f),
          (should_include_string_timestamp L d2 (s ++ "+00:00") f);
    try assumption; try (apply append_nonempty; discriminate).
  rewrite !replace_app, (replace_no_Z _ s Hs).
  reflexivity.
Qed.

Lemma X3_trailing_Z_is_utc_offset_witness :
  _should_include_log PyRef.lib
    (VDict [("@timestamp", VStr "2025-06-22T13:57:32Z")]) (Some "2025-06-22")
  = _should_include_log PyRef.lib
      (VDict [("@timestamp", VStr "2025-06-22T13:57:32+00:00")])
      (Some "2025-06-22").
Proof.
  apply (X3_trailing_Z_is_utc_offset PyRef.lib _ _ "2025-06-22T13:57:32");
    reflexivity.
Defined.


(* ================================================================== *)
(** * Further properties of the loaders *)
(* ================================================================== *)

Lemma filter_all_pass {A} (p : A -> bool) (l : list A) :
  (forall x, In x l -> p x = true) -> filter p l = l.
Proof.
  induction l as [|x l IH]; intros H; [reflexivity|]. simpl.
  rewrite (H x) by now left. f_equal. apply IH. intros y Hy. apply H.
  now right.
Qed.

(** X4.  Loading the contents of the store again, through the same filter,
    changes nothing and raises nothing: what a load from memory retains, a
    second load with the same filter retains entirely, even when the first
    load ended with an exception. *)
Theorem X4_reloading_the_store_is_identity
    (L : pylib) (data : list value) (f : option string) (w w' : world) :
  load_logs_from_data L
    (logs (snd (load_logs_from_data L data f w))) f w'
  = (Ret tt,
     mkworld (logs (snd (load_logs_from_data L data f w))) (stderr w')).
Proof.
  rewrite (load_logs_from_data_scan L data f w). cbn [snd logs].
  rewrite load_logs_from_data_scan.
  assert (Hall : forall v, In v (fst (scan_data L f data)) ->
                           _should_include_log L v f = Ret true).
  { intros v Hv. now apply scan_data_sound in Hv. }
  rewrite scan_data_returns.
  - cbn [fst snd outcome_of_stop]. rewrite filter_all_pass; [reflexivity|].
    intros v Hv. unfold passes. now rewrite (Hall v Hv).
  - apply Forall_forall. intros v Hv. exists true. now apply Hall.
Qed.




(** ** Order *)

Lemma subsequence_refl {A} (l : list A) : subsequence l l.
Proof. induction l; constructor; assumption. Qed.

Lemma subsequence_app {A} (l1 m1 l2 m2 : list A) :
  subsequence l1 m1 -> subsequence l2 m2 ->
  subsequence (l1 ++ l2) (m1 ++ m2).
Proof.
  induction 1; intros H2; simpl; try constructor; auto.
Qed.

Lemma subsequence_filter {A} (p : A -> bool) (l : list A) :
  subsequence (filter p l) l.
Proof.
  induction l as [|x l IH]; simpl; [constructor|].
  destruct (p x); constructor; assumption.
Qed.

Lemma subsequence_trans {A} (l m n : list A) :
  subsequence l m -> subsequence m n -> subsequence l n.
Proof.
  intros Hlm Hmn. revert l Hlm.
  induction Hmn as [|x m n _ IH|x m n _ IH]; intros l Hlm.
  - assumption.
  - inversion Hlm; subst; constructor; auto.
  - constructor. auto.
Qed.

Lemma subsequence_nil_l {A} (l : list A) : subsequence [] l.
Proof. induction l; constructor; assumption. Qed.

Lemma subsequence_length {A} (l m : list A) :
  subsequence l m -> (length l <= length m)%nat.
Proof. induction 1; simpl; lia. Qed.

Lemma subsequence_firstn_flat_map {A B} (g : A -> list B) (k : nat)
    (l : list A) :
  subsequence (flat_map g (firstn k l)) (flat_map g l).
Proof.
  rewrite <- (firstn_skipn k l) at 2. rewrite flat_map_app.
  rewrite <- (app_nil_r (flat_map g (firstn k l))) at 1.
  apply subsequence_app; [apply subsequence_refl|apply subsequence_nil_l].
Qed.

Lemma scan_data_subsequence (L : pylib) (f : option string)
    (data : list value) :
  subsequence (fst (scan_data L f data)) data.
Proof.
  induction data as [|v rest IH]; simpl; [constructor|].
  destruct (_should_include_log L v f) as [b|e].
  - destruct (scan_data L f rest) as [vs stop]. simpl in *.
    destruct b; constructor; assumption.
  - apply subsequence_nil_l.
Qed.

Lemma file_records_subsequence (L : pylib) (fs : filesystem)
    (f : option string) (p : string) :
  subsequence (file_records L fs f p)
    (match fs p with
     | Readable lines _ => flat_map (parsed_record L) lines
     | _ => []
     end).
Proof.
  unfold file_records, scan_file.
  destruct (fs p) as [|e|lines failure|e]; try constructor.
  destruct (scan_lines_prefix L p f lines 1) as [k Hk].
  assert (E : fst (let '(vs, ds, stop) := scan_lines L p f lines 1 in
                   match stop, failure with
                   | Some e, _ => (vs, (ds ++ [ErrReading p e])%list)
                   | None, Some e => (vs, (ds ++ [ErrReading p e])%list)
                   | None, None => (vs, ds)
                   end) = fst (fst (scan_lines L p f lines 1))).
  { destruct (scan_lines L p f lines 1) as [[vs ds] [e|]];
      [reflexivity|now destruct failure]. }
  rewrite E, Hk. unfold passing_records.
  apply subsequence_trans with (flat_map (parsed_record L) (firstn k lines)).
  - apply subsequence_filter.
  - apply subsequence_firstn_flat_map.
Qed.

Lemma scan_paths_subsequence (L : pylib) (fs : filesystem)
    (f : option string) (paths : list string) :
  subsequence (fst (fst (scan_paths L fs f paths)))
    (parsed_records L fs paths).
Proof.
  unfold parsed_records. induction paths as [|p rest IH]; [constructor|].
  cbn [flat_map scan_paths].
  assert (Hcons : subsequence
            (file_records L fs f p ++ fst (fst (scan_paths L fs f rest)))
            (match fs p with
             | Readable lines _ => flat_map (parsed_record L) lines
             | _ => []
             end ++
             flat_map (fun p => match fs p with
                                | Readable lines _ =>
                                    flat_map (parsed_record L) lines
                                | _ => []
                                end) rest)).
  { apply subsequence_app; [|assumption]. apply file_records_subsequence. }
  destruct (fs p) as [|e|lines failure|e];
    try (destruct (scan_paths L fs f rest) as [[vs ds] stop];
         cbn [fst snd] in *; exact Hcons).
  apply subsequence_nil_l.
Qed.

(** X6.  A load never reorders, repeats or alters records: the store it
    leaves is its input (the in-memory records, or the records of the
    lines of the files in the order of the paths and of the lines) with
    some records left out; so it is never longer than the input. *)
Theorem X6_store_is_subsequence_of_input
    (L : pylib) (c : load_call) (w : world) :
  subsequence (logs (snd (run_load L c w))) (input_records L c)
  /\ (length (logs (snd (run_load L c w)))
      <= length (input_records L c))%nat.
Proof.
  assert (H : subsequence (logs (snd (run_load L c w))) (input_records L c)).
  { rewrite run_load_logs. destruct c as [fs paths f|data f]; simpl.
    - apply scan_paths_subsequence.
    - apply scan_data_subsequence. }
  split; [assumption|]. now apply subsequence_length.
Qed.

(** X7.  Loading a list of paths is loading its parts one after the other.
    For paths [ps1 ++ ps2], when the loading of [ps1] returns, the store
    is what the paths [ps1] leave followed by what the paths [ps2] leave,
    the diagnostics likewise, and the call ends as the loading of [ps2]
    does; a path listed twice is read twice.  When [path.exists()] raises
    among [ps1], the call ends there with that exception, and no path of
    [ps2] adds to the store or to the diagnostics. *)
Theorem X7_load_logs_over_concatenated_paths
    (L : pylib) (fs : filesystem) (ps1 ps2 : list string)
    (f : option string) (w : world) :
  let run ps := load_logs L fs ps f new_processor in
  load_logs L fs (ps1 ++ ps2) f w
  = match fst (run ps1) with
    | Raise e =>
        (Raise e, mkworld (logs (snd (run ps1)))
                          (stderr w ++ stderr (snd (run ps1))))
    | Ret _ =>
        (fst (run ps2),
         mkworld (logs (snd (run ps1)) ++ logs (snd (run ps2)))
                 (stderr w ++ stderr (snd (run ps1))
                    ++ stderr (snd (run ps2))))
    end.
Proof.
  cbv zeta. rewrite !load_logs_scan, scan_paths_app.
  cbn [fst snd logs stderr new_processor app].
  destruct (scan_paths L fs f ps1) as [[vs ds] [e|]];
    destruct (scan_paths L fs f ps2) as [[vs' ds'] stop];
    cbn [fst snd outcome_of_stop]; reflexivity.
Qed.

(** ** Diagnostics and blank lines *)

Lemma should_include_never_decode_error (L : pylib) (v : value)
    (f : option string) (e : exn) :
  _should_include_log L v f = Raise e -> issubclass e JSONDecodeError = false.
Proof.
  intros Hr. destruct (filter_safe v) eqn:Hsafe.
  - destruct (filter_safe_returns L v f Hsafe) as [b Hb]. congruence.
  - destruct f as [s|]; [|discriminate].
    destruct (String.eqb_spec s "") as [->|Hs]; [discriminate|].
    rewrite filter_unsafe_raises in Hr by assumption. now injection Hr as <-.
Qed.

(** A warning stands for a line that [json.loads] could not decode. *)
Lemma warned_line_is_undecodable (L : pylib) (f : option string)
    (line : string) :
  line_outcome_of L f line = LWarn <->
  strip line <> ""
  /\ exists e, json_loads L (strip line) = Raise e
               /\ issubclass e JSONDecodeError = true.
Proof.
  unfold line_outcome_of. rewrite <- truthy_str_nonempty.
  destruct (truthy (VStr (strip line))); cbn [negb].
  2:{ split; [discriminate|]. now intros [? _]. }
  destruct (json_loads L (strip line)) as [v|e].
  - split.
    + destruct (_should_include_log L v f) as [[|]|e] eqn:E;
        try discriminate.
      rewrite (should_include_never_decode_error L v f e E). discriminate.
    + intros [_ [e [He _]]]. discriminate.
  - destruct (issubclass e JSONDecodeError) eqn:E.
    + split; [|reflexivity]. intros _. split; [reflexivity|]. now exists e.
    + split; [discriminate|]. intros [_ [e' [[= <-] He']]]. congruence.
Qed.

Lemma scan_lines_diags (L : pylib) (p : string) (f : option string)
    (lines : list string) :
  forall (start : Z) (d : diag),
    In d (snd (fst (scan_lines L p f lines start))) ->
    exists n line,
      d = WarnInvalidJson p n /\ start <= n
      /\ nth_error lines (Z.to_nat (n - start)) = Some line
      /\ line_outcome_of L f line = LWarn.
Proof.
  induction lines as [|line rest IH]; intros start d; [intros []|].
  cbn [scan_lines].
  assert (Hrest : In d (snd (fst (scan_lines L p f rest (start + 1)))) ->
    exists n l,
      d = WarnInvalidJson p n /\ start <= n
      /\ nth_error (line :: rest) (Z.to_nat (n - start)) = Some l
      /\ line_outcome_of L f l = LWarn).
  { intros Hin. destruct (IH _ _ Hin) as [n [l [Hd [Hn [Hnth Hl]]]]].
    exists n, l. repeat split; try assumption; try lia.
    replace (Z.to_nat (n - start)) with (S (Z.to_nat (n - (start + 1))))
      by lia. exact Hnth. }
  destruct (line_outcome_of L f line) as [|v| |e] eqn:E;
    [ | | |intros []];
    destruct (scan_lines L p f rest (start + 1)) as [[vs ds] stop];
    cbn [fst snd] in *; try exact Hrest.
  intros [<-|Hin]; [|now apply Hrest].
  exists start, line. repeat split; try lia; try assumption.
  now rewrite Z.sub_diag.
Qed.

Lemma scan_lines_warns (L : pylib) (p : string) (f : option string)
    (lines : list string) :
  forall (start : Z) (i : nat) (line : string),
    nth_error lines i = Some line ->
    line_outcome_of L f line = LWarn ->
    Forall (fun l => line_fails_as_json_only L f l = true) (firstn i lines) ->
    In (WarnInvalidJson p (start + Z.of_nat i))
       (snd (fst (scan_lines L p f lines start))).
Proof.
  induction lines as [|l rest IH]; intros start i line Hnth Hl Hpre.
  - now destruct i.
  - cbn [scan_lines]. destruct i as [|i].
    + injection Hnth as ->. rewrite Hl.
      destruct (scan_lines L p f rest (start + 1)) as [[vs ds] stop].
      left. f_equal. lia.
    + cbn [firstn nth_error] in *. inversion Hpre as [|? ? Hl0 Hpre']; subst.
      specialize (IH (start + 1) i line Hnth Hl Hpre').
      replace (start + 1 + Z.of_nat i) with (start + Z.of_nat (S i)) in IH
        by lia.
      unfold line_fails_as_json_only in Hl0.
      destruct (line_outcome_of L f l); try discriminate;
        destruct (scan_lines L p f rest (start + 1)) as [[vs ds] stop];
        cbn [fst snd] in *; try assumption. now right.
Qed.

Lemma file_diags_warnings (L : pylib) (fs : filesystem) (f : option string)
    (p : string) (lines : list string) (failure : option exn) (n : Z) :
  fs p = Readable lines failure ->
  (In (WarnInvalidJson p n) (file_diags L fs f p) <->
   In (WarnInvalidJson p n) (snd (fst (scan_lines L p f lines 1)))).
Proof.
  intros Hp. unfold file_diags, scan_file. rewrite Hp.
  destruct (scan_lines L p f lines 1) as [[vs ds] [e|]]; cbn [fst snd].
  - rewrite in_app_iff. split; [|now left].
    intros [H|[H|[]]]; [assumption|discriminate].
  - destruct failure as [e|]; cbn [snd]; [|reflexivity].
    rewrite in_app_iff. split; [|now left].
    intros [H|[H|[]]]; [assumption|discriminate].
Qed.

(** X8.  The line number in an invalid-JSON warning is the position of the
    line in its file, counted from 1 with the blank lines: a warning for
    line [n] of a file is printed only if the [n]-th line is not blank
    and [json.loads] fails on it with a decoding error; and it is printed
    for every such line that the reading of the file reaches. *)
Theorem X8_warning_names_the_undecodable_line
    (L : pylib) (fs : filesystem) (f : option string) (p : string)
    (lines : list string) (failure : option exn) :
  fs p = Readable lines failure ->
  (forall n,
     In (WarnInvalidJson p n) (file_diags L fs f p) ->
     1 <= n <= Z.of_nat (length lines)
     /\ exists line e,
          nth_error lines (Z.to_nat (n - 1)) = Some line
          /\ strip line <> ""
          /\ json_loads L (strip line) = Raise e
          /\ issubclass e JSONDecodeError = true)
  /\ (forall i line e,
        nth_error lines i = Some line ->
        strip line <> "" ->
        json_loads L (strip line) = Raise e ->
        issubclass e JSONDecodeError = true ->
        Forall (fun l => line_fails_as_json_only L f l = true)
               (firstn i lines) ->
        In (WarnInvalidJson p (Z.of_nat i + 1)) (file_diags L fs f p)).
Proof.
  intros Hp. split.
  - intros n Hin. apply (file_diags_warnings L fs f p lines failure n Hp) in Hin.
    destruct (scan_lines_diags L p f lines 1 _ Hin)
      as [n' [line [[= <-] [Hn [Hnth Hl]]]]].
    apply warned_line_is_undecodable in Hl as [Hne [e [He Hsub]]].
    assert (Hlt : (Z.to_nat (n - 1) < length lines)%nat).
    { apply nth_error_Some. congruence. }
    split; [lia|]. exists line, e. repeat split; assumption.
  - intros i line e Hnth Hne He Hsub Hpre.
    apply (file_diags_warnings L fs f p lines failure _ Hp).
    replace (Z.of_nat i + 1) with (1 + Z.of_nat i) by lia.
    apply (scan_lines_warns L p f lines 1 i line); try assumption.
    apply warned_line_is_undecodable. split; [assumption|]. now exists e.
Qed.

Lemma X8_warning_names_the_undecodable_line_witness :
  In (WarnInvalidJson "a.log" 3)
     (file_diags PyRef.lib fs_scenario (Some "2025-06-22") "a.log").
Proof.
  destruct (X8_warning_names_the_undecodable_line PyRef.lib fs_scenario
              (Some "2025-06-22") "a.log"
              [PyRef.line_june_22; "  "; "invalid json line";
               PyRef.line_june_22] None eq_refl) as [_ H].
  apply (H 2%nat "invalid json line" JSONDecodeError).
  - reflexivity.
  - discriminate.
  - reflexivity.
  - reflexivity.
  - repeat constructor.
Defined.

Lemma lstrip_all_space (s : string) : all_space s = true -> lstrip s = "".
Proof.
  induction s as [|c s IH]; [reflexivity|]. cbn [all_space lstrip].
  intros [Hc Hs]%andb_true_iff. rewrite Hc. now apply IH.
Qed.

Lemma strip_all_space (s : string) : all_space s = true -> strip s = "".
Proof. intros H. unfold strip. now rewrite lstrip_all_space. Qed.

Lemma blank_line_outcome (L : pylib) (f : option string) (line : string) :
  all_space line = true -> line_outcome_of L f line = LSkip.
Proof.
  intros H. unfold line_outcome_of. now rewrite strip_all_space.
Qed.

Lemma scan_lines_records_any_start (L : pylib) (p : string)
    (f : option string) (lines : list string) :
  forall n m,
    fst (fst (scan_lines L p f lines n)) = fst (fst (scan_lines L p f lines m))
    /\ snd (scan_lines L p f lines n) = snd (scan_lines L p f lines m).
Proof.
  induction lines as [|l rest IH]; intros n m; [now split|].
  cbn [scan_lines]. specialize (IH (n + 1) (m + 1)).
  destruct (scan_lines L p f rest (n + 1)) as [[vs ds] stop].
  destruct (scan_lines L p f rest (m + 1)) as [[vs' ds'] stop'].
  cbn [fst snd] in IH. destruct IH as [-> ->].
  destruct (line_outcome_of L f l); now split.
Qed.

Lemma scan_lines_skip_blank (L : pylib) (p : string) (f : option string)
    (l1 l2 : list string) (blank : string) :
  all_space blank = true ->
  forall n,
    fst (fst (scan_lines L p f (l1 ++ blank :: l2) n))
      = fst (fst (scan_lines L p f (l1 ++ l2) n))
    /\ snd (scan_lines L p f (l1 ++ blank :: l2) n)
       = snd (scan_lines L p f (l1 ++ l2) n).
Proof.
  intros Hb. induction l1 as [|l rest IH]; intros n.
  - cbn [app scan_lines]. rewrite (blank_line_outcome L f blank Hb).
    pose proof (scan_lines_records_any_start L p f l2 (n + 1) n) as [H1 H2].
    destruct (scan_lines L p f l2 (n + 1)) as [[vs ds] stop].
    destruct (scan_lines L p f l2 n) as [[vs' ds'] stop'].
    cbn [fst snd] in *. now subst.
  - cbn [app scan_lines]. specialize (IH (n + 1)).
    destruct (scan_lines L p f (rest ++ blank :: l2) (n + 1))
      as [[vs ds] stop].
    destruct (scan_lines L p f (rest ++ l2) (n + 1)) as [[vs' ds'] stop'].
    cbn [fst snd] in IH. destruct IH as [-> ->].
    destruct (line_outcome_of L f l); now split.
Qed.

(** X9.  Blank lines are silent: a line of white space only changes
    neither the store nor the error stream, and a file with such a line
    somewhere contributes the same records as the file without it. *)
Theorem X9_blank_lines_are_silent
    (L : pylib) (f : option string) (blank : string) :
  all_space blank = true ->
  (forall p n w, load_line L p f n blank w = (Ret tt, w))
  /\ (forall fs fs' p l1 l2 failure,
        fs p = Readable (l1 ++ blank :: l2) failure ->
        fs' p = Readable (l1 ++ l2) failure ->
        file_records L fs f p = file_records L fs' f p).
Proof.
  intros Hb. split.
  - intros p n w. rewrite load_line_outcome.
    now rewrite blank_line_outcome.
  - intros fs fs' p l1 l2 failure Hp Hp'.
    unfold file_records, scan_file. rewrite Hp, Hp'.
    destruct (scan_lines_skip_blank L p f l1 l2 blank Hb 1) as [H1 H2].
    destruct (scan_lines L p f (l1 ++ blank :: l2) 1) as [[vs ds] stop].
    destruct (scan_lines L p f (l1 ++ l2) 1) as [[vs' ds'] stop'].
    cbn [fst snd] in *. subst.
    destruct stop'; [reflexivity|now destruct failure].
Qed.

Lemma X9_blank_lines_are_silent_witness :
  load_line PyRef.lib "a.log" (Some "2025-06-22") 2
    (String (ascii_of_nat 9) (String (ascii_of_nat 32) (String (ascii_of_nat 10) "")))
    empty_world
  = (Ret tt, empty_world).
Proof.
  apply (X9_blank_lines_are_silent PyRef.lib). reflexivity.
Defined.

(* ================================================================== *)
(** * Further properties of the statistics *)
(* ================================================================== *)

Lemma sum_counts_bump (d : stats_dict) (u : string) (v : value) :
  sum_counts (bump d u v) = sum_counts d + 1.
Proof.
  induction d as [|[k st] rest IH]; [reflexivity|]. cbn [bump].
  destruct (key_eqb k (VStr u)); unfold sum_counts in *;
    cbn [fold_right snd add_time count] in *; lia.
Qed.

Lemma sum_counts_step (d : stats_dict) (r : record) :
  well_formed_record r = true ->
  sum_counts (step d r) = sum_counts d + (if aggregated r then 1 else 0).
Proof.
  intros [Hu _]%andb_true_iff. unfold step.
  destruct (aggregated r) eqn:Ha; [|lia].
  unfold url_is_string_or_absent in Hu. unfold aggregated in Ha.
  destruct (url_of r); try discriminate.
  apply sum_counts_bump.
Qed.

Lemma sum_counts_fold (rs : list record) :
  Forall (fun r => well_formed_record r = true) rs ->
  forall d,
    sum_counts (fold_left step rs d)
    = sum_counts d + Z.of_nat (length (filter aggregated rs)).
Proof.
  induction 1 as [|r rest Hr _ IH]; intros d; [simpl; lia|].
  cbn [fold_left filter]. rewrite IH, sum_counts_step by assumption.
  destruct (aggregated r); cbn [length]; lia.
Qed.

Lemma sum_counts_permutation (d d' : stats_dict) :
  Permutation d d' -> sum_counts d = sum_counts d'.
Proof.
  unfold sum_counts. induction 1; cbn [fold_right] in *; lia.
Qed.

Lemma sum_totals_rows (items : stats_dict) :
  sum_totals (map row_of items) = sum_counts items.
Proof.
  unfold sum_totals, sum_counts.
  induction items as [|kv rest IH]; [reflexivity|].
  cbn [map fold_right row_of row_total]. now rewrite IH.
Qed.

Lemma length_le_sum_counts (d : stats_dict) :
  Forall (fun kv => 1 <= count (snd kv)) d ->
  Z.of_nat (length d) <= sum_counts d.
Proof.
  unfold sum_counts. induction 1; cbn [length fold_right] in *; lia.
Qed.

(** X10.  On a well-formed store the counts of the rows add up to the
    number of records that have a truthy url and a response time that is
    not null: every such record is counted in one row exactly, no other
    record is counted, and there are no more rows than such records. *)
Theorem X10_totals_add_up (rs : list record) :
  Forall (fun r => well_formed_record r = true) rs ->
  Z.of_nat (length rs) <= sys_maxsize ->
  exists rows,
    generate_average_report (store_of rs) = Ret rows
    /\ sum_totals rows = Z.of_nat (length (filter aggregated rs))
    /\ (length rows <= length (filter aggregated rs))%nat.
Proof.
  intros Hwf Hlen.
  destruct (report_of_store rs Hwf Hlen)
    as [d [items [Hagg [_ [_ [Hcount [_ [Hperm [_ [_ [Hrep _]]]]]]]]]]].
  rewrite aggregate_steps in Hagg by assumption. injection Hagg as <-.
  exists (map row_of items). split; [assumption|].
  assert (Hsum : sum_totals (map row_of items)
                 = Z.of_nat (length (filter aggregated rs))).
  { rewrite sum_totals_rows, <- (sum_counts_permutation _ _ Hperm).
    now rewrite sum_counts_fold. }
  split; [assumption|].
  pose proof (length_le_sum_counts _ Hcount) as Hle.
  rewrite (sum_counts_permutation _ _ Hperm), <- sum_totals_rows, Hsum in Hle.
  rewrite length_map, <- (Permutation_length Hperm). lia.
Qed.

Lemma X10_totals_add_up_witness :
  exists rows,
    generate_average_report
      (store_of [record_of "/b" (VInt 3); [("url", VStr "/c")];
                 record_of "/a" (VFloat (PyRef.ratio 1 10));
                 record_of "/b" (VBool true)])
    = Ret rows
    /\ sum_totals rows = 3.
Proof.
  destruct (X10_totals_add_up
              [record_of "/b" (VInt 3); [("url", VStr "/c")];
               record_of "/a" (VFloat (PyRef.ratio 1 10));
               record_of "/b" (VBool true)])
    as [rows [H1 [H2 _]]].
  - repeat constructor.
  - vm_compute. discriminate.
  - exists rows. split; [exact H1|exact H2].
Defined.

Lemma ltb_irrefl (s : string) : String.ltb s s = false.
Proof.
  unfold String.ltb. pose proof (String.compare_antisym s s) as H.
  destruct (s ?= s)%string; try reflexivity. discriminate.
Qed.

Lemma item_before_irrefl (a : value * stats) : ~ item_before a a.
Proof.
  unfold item_before. destruct (fst a); try tauto.
  now rewrite ltb_irrefl.
Qed.

Lemma item_before_trans (a b c : value * stats) :
  item_before a b -> item_before b c -> item_before a c.
Proof.
  unfold item_before.
  destruct (fst a), (fst b), (fst c); try contradiction.
  apply ltb_trans.
Qed.

(** Two strongly sorted lists with the same elements are equal. *)
Lemma strongly_sorted_unique {A} (R : A -> A -> Prop) :
  (forall a, ~ R a a) -> (forall a b c, R a b -> R b c -> R a c) ->
  forall l1 l2,
    StronglySorted R l1 -> StronglySorted R l2 ->
    (forall x, In x l1 <-> In x l2) -> l1 = l2.
Proof.
  intros Hirr Htrans. induction l1 as [|a t1 IH]; intros l2 H1 H2 Hin.
  - destruct l2 as [|b t2]; [reflexivity|].
    destruct (proj2 (Hin b) (or_introl eq_refl)).
  - destruct l2 as [|b t2];
      [destruct (proj1 (Hin a) (or_introl eq_refl))|].
    apply StronglySorted_inv in H1 as [H1 Ha].
    apply StronglySorted_inv in H2 as [H2 Hb].
    rewrite Forall_forall in Ha, Hb.
    assert (Hab : a = b).
    { destruct (proj1 (Hin a) (or_introl eq_refl)) as [E|Hat2];
        [now symmetry|].
      destruct (proj2 (Hin b) (or_introl eq_refl)) as [E|Hbt1];
        [assumption|].
      elim (Hirr a). apply (Htrans a b a); [now apply Ha|now apply Hb]. }
    subst b. f_equal. apply IH; try assumption.
    intros x. split; intros Hx.
    + destruct (proj1 (Hin x) (or_intror Hx)) as [E|Hx2]; [|assumption].
      subst x. elim (Hirr a). now apply Ha.
    + destruct (proj2 (Hin x) (or_intror Hx)) as [E|Hx1]; [|assumption].
      subst x. elim (Hirr a). now apply Hb.
Qed.

(** X11.  The report depends on the store only through the response times
    recorded for each url, in their order: two well-formed stores that
    agree on these give the same rows, however the records of different
    urls are interleaved and whatever else the records hold. *)
Theorem X11_report_depends_on_contributions_only (rs1 rs2 : list record) :
  Forall (fun r => well_formed_record r = true) rs1 ->
  Forall (fun r => well_formed_record r = true) rs2 ->
  Z.of_nat (length rs1) <= sys_maxsize ->
  Z.of_nat (length rs2) <= sys_maxsize ->
  (forall u, u <> "" -> contributions u rs1 = contributions u rs2) ->
  generate_average_report (store_of rs1)
  = generate_average_report (store_of rs2).
Proof.
  intros Hwf1 Hwf2 Hlen1 Hlen2 Hsame.
  destruct (report_of_store rs1 Hwf1 Hlen1)
    as [d1 [items1 [_ [Hd1 [Hstr1 [_ [_ [Hperm1 [Hsort1 [_ [Hrep1 _]]]]]]]]]]].
  destruct (report_of_store rs2 Hwf2 Hlen2)
    as [d2 [items2 [_ [Hd2 [Hstr2 [_ [_ [Hperm2 [Hsort2 [_ [Hrep2 _]]]]]]]]]]].
  rewrite Hrep1, Hrep2. do 2 f_equal.
  apply (strongly_sorted_unique item_before item_before_irrefl
           item_before_trans);
    try (apply Sorted_StronglySorted;
         [intros a b c; apply item_before_trans|assumption]).
  assert (Hone : forall rs rs' d d' items items',
    (forall u st, In (VStr u, st) d <->
       u <> "" /\ contributions u rs <> []
       /\ st = mkstats (Z.of_nat (length (contributions u rs)))
                       (sum_floats (contributions u rs))) ->
    (forall u st, In (VStr u, st) d' <->
       u <> "" /\ contributions u rs' <> []
       /\ st = mkstats (Z.of_nat (length (contributions u rs')))
                       (sum_floats (contributions u rs'))) ->
    Forall key_is_string d -> Permutation d items ->
    Permutation d' items' ->
    (forall u, u <> "" -> contributions u rs = contributions u rs') ->
    forall x, In x items -> In x items').
  { intros rs rs' d d' items items' Hd Hd' Hstr Hperm Hperm' Heq x Hx.
    apply (Permutation_in _ Hperm').
    apply (Permutation_in _ (Permutation_sym Hperm)) in Hx.
    rewrite Forall_forall in Hstr. destruct x as [k st].
    destruct (Hstr _ Hx) as [u Hu]. cbn [fst] in Hu. subst k.
    apply Hd in Hx as [Hne [Hc ->]]. apply Hd'.
    rewrite <- (Heq u Hne). auto. }
  intros x. split.
  - apply (Hone rs1 rs2 d1 d2); assumption.
  - apply (Hone rs2 rs1 d2 d1); try assumption.
    intros u Hu. symmetry. now apply Hsame.
Qed.

Lemma contributes_record_of (u s : string) (v : value) :
  contributes u (record_of s v) = ((s =? u)%string && negb (is_none v))%bool.
Proof. reflexivity. Qed.

Lemma X11_report_depends_on_contributions_only_witness :
  generate_average_report
    (store_of [record_of "/a" (VFloat (PyRef.ratio 1 10));
               record_of "/b" (VInt 3);
               record_of "/a" (VFloat (PyRef.ratio 3 10))])
  = generate_average_report
      (store_of [record_of "/b" (VInt 3);
                 record_of "/a" (VFloat (PyRef.ratio 1 10));
                 record_of "/a" (VFloat (PyRef.ratio 3 10))]).
Proof.
  apply X11_report_depends_on_contributions_only.
  - repeat constructor.
  - repeat constructor.
  - vm_compute. discriminate.
  - vm_compute. discriminate.
  - intros u _. unfold contributions. cbn [filter].
    rewrite !contributes_record_of.
    destruct (String.eqb_spec "/a" u) as [<-|Ha]; [reflexivity|].
    destruct ("/b" =? u)%string; reflexivity.
Defined.

(** X12.  [generate_report] returns [None] for every report type other
    than [average] (the comparison is exact), whatever the store holds,
    and never for [average]; for [average] it raises exactly when
    [generate_average_report] raises, with the same exception. *)
Theorem X12_none_means_unknown_report_type
    (L : pylib) (logs : list value) (report_type : string) :
  (generate_report L logs report_type = Ret None
   <-> report_type <> "average")
  /\ (forall e,
        generate_report L logs report_type = Raise e
        <-> report_type = "average"
            /\ generate_average_report logs = Raise e).
Proof.
  unfold generate_report.
  destruct (String.eqb_spec report_type "average") as [->|Hne].
  - split.
    + split; [|intros H; now elim H].
      destruct (generate_average_report logs) as [[|r rows]|e'];
        discriminate.
    + intros e. split.
      * destruct (generate_average_report logs) as [[|r rows]|e'];
          cbn [obind]; try discriminate.
        intros [= ->]. now split.
      * intros [_ ->]. reflexivity.
  - split; [split; [intros _; assumption|reflexivity]|].
    intros e. split; [discriminate|]. intros [H _]. contradiction.
Qed.

Lemma X12_none_means_unknown_report_type_witness :
  generate_report PyRef.lib [VInt 5] "Average" = Ret None.
Proof.
  apply (X12_none_means_unknown_report_type PyRef.lib). discriminate.
Defined.

(* ================================================================== *)
(** * Properties of [main] *)
(* ================================================================== *)





Lemma generate_report_average (L : pylib) (logs : list value) :
  generate_report L logs "average" =
    match generate_average_report logs with
    | Ret rows => Ret (Some (report_text L rows))
    | Raise e => Raise e
    end.
Proof.
  unfold generate_report. cbn [String.eqb Ascii.eqb Bool.eqb].
  destruct (generate_average_report logs) as [[|r rows]|e]; reflexivity.
Qed.






(** The three ways in which [main] ends with a traceback, each on an
    input of its own: a name too long for the system among the paths, a
    record whose [response_time] is a string, and a url that the ASCII
    stream cannot take. *)
Example main_uncaught_scenarios :
  main PyRef.lib fs_long_name stdout_utf8
    (args_average ["b.log"; long_name; "b.log"] None)
  = (Uncaught OSError, mkconsole [] [])
  /\ main lib_cafe fs_cafe stdout_ascii (args_average ["cafe.log"] None)
     = (Uncaught UnicodeEncodeError, mkconsole [] [])
  /\ fst (main lib_cafe fs_cafe stdout_utf8
            (args_average ["cafe.log"] None))
     = Returned.
Proof. repeat split; vm_compute; reflexivity. Qed.




Lemma scan_lines_empty_filter (L : pylib) (p : string)
    (lines : list string) :
  forall n, scan_lines L p (Some "") lines n = scan_lines L p None lines n.
Proof.
  induction lines as [|l rest IH]; intros n; [reflexivity|].
  cbn [scan_lines]. rewrite IH. reflexivity.
Qed.

Lemma load_logs_empty_filter (L : pylib) (fs : filesystem)
    (paths : list string) (w : world) :
  load_logs L fs paths (Some "") w = load_logs L fs paths None w.
Proof.
  rewrite !load_logs_scan.
  assert (E : scan_paths L fs (Some "") paths = scan_paths L fs None paths).
  { induction paths as [|p rest IH]; [reflexivity|].
    cbn [scan_paths]. rewrite IH. unfold file_records, file_diags, scan_file.
    destruct (fs p); try reflexivity. now rewrite scan_lines_empty_filter. }
  now rewrite E.
Qed.

(** X16.  The empty string as date is no date at all, throughout: [main]
    with [--date] followed by the empty string does what it does without
    [--date] (the empty string is not checked for its format), and both
    loaders leave the same store and the same diagnostics with the empty
    string as with [None]. *)
Theorem X16_empty_date_is_no_date
    (L : pylib) (fs : filesystem) (print_out : stdout)
    (files : list string) (report : string)
    (data : list value) (w : world) :
  main L fs print_out (mkargs files report (Some ""))
  = main L fs print_out (mkargs files report None)
  /\ load_logs L fs files (Some "") w = load_logs L fs files None w
  /\ load_logs_from_data L data (Some "") w
     = load_logs_from_data L data None w.
Proof.
  split; [|split].
  - unfold main. cbn [arg_date arg_file arg_report date_is_valid truthy
                      String.eqb negb].
    now rewrite load_logs_empty_filter.
  - apply load_logs_empty_filter.
  - reflexivity.
Qed.

(* ================================================================== *)
(** * The exceptions of the aggregation *)
(* ================================================================== *)

Lemma float_of_int_raises (z : Z) (e : exn) :
  float_of_int z = Raise e -> e = OverflowError.
Proof.
  unfold float_of_int. destruct (Z.abs z <? double_int_bound);
    [discriminate|now intros [= <-]].
Qed.

Lemma float_add_raises (a : float) (v : value) (e : exn) :
  float_add a v = Raise e -> e = TypeError \/ e = OverflowError.
Proof.
  destruct v as [|b|z|x|s|l|d]; cbn [float_add];
    try (intros [= <-]; now left); try discriminate.
  - destruct (float_of_int (if b then 1 else 0)) eqn:E; [discriminate|].
    intros [= <-]. right. now apply float_of_int_raises in E.
  - destruct (float_of_int z) eqn:E; [discriminate|].
    intros [= <-]. right. now apply float_of_int_raises in E.
Qed.

Lemma update_entry_counted (d : stats_dict) (key : value)
    (f : stats -> outcome stats) :
  (forall st st', f st = Ret st' -> count st' = count st + 1) ->
  (forall st e, f st = Raise e -> aggregation_error e) ->
  Forall counted d ->
  match update_entry d key f with
  | Ret d' => Forall counted d'
  | Raise e => aggregation_error e
  end.
Proof.
  intros Hret Hraise. induction 1 as [|[k st] rest Hk Hrest IH].
  - cbn [update_entry]. destruct (f default_stats) as [st'|e] eqn:E.
    + cbn [obind]. repeat constructor. unfold counted. cbn [snd].
      rewrite (Hret _ _ E). cbn. lia.
    + now apply (Hraise default_stats).
  - cbn [update_entry]. destruct (key_eqb k key).
    + destruct (f st) as [st'|e] eqn:E; cbn [obind].
      * constructor; [|assumption]. unfold counted in *. cbn [snd] in *.
        rewrite (Hret _ _ E). lia.
      * now apply (Hraise st).
    + destruct (update_entry rest key f); cbn [obind]; [|assumption].
      now constructor.
Qed.

Lemma aggregate_log_counted (d : stats_dict) (v : value) :
  Forall counted d ->
  match aggregate_log d v with
  | Ret d' => Forall counted d'
  | Raise e => aggregation_error e
  end.
Proof.
  intros Hd. unfold aggregate_log.
  destruct (py_get v "url") as [url|e] eqn:Hu.
  2:{ destruct v; try discriminate; injection Hu as <-; now left. }
  cbn [obind]. destruct (py_get v "response_time") as [rt|e] eqn:Hr.
  2:{ destruct v; try discriminate; injection Hr as <-; now left. }
  cbn [obind]. destruct (truthy url && negb (is_none rt)); [|assumption].
  unfold setdefault_update. destruct (hashable url); [|right; now left].
  apply update_entry_counted; try assumption.
  - intros st st'. cbv zeta.
    destruct (float_add (total_time st) rt); [|discriminate].
    now intros [= <-].
  - intros st e. cbv zeta.
    destruct (float_add (total_time st) rt) eqn:E; [discriminate|].
    intros [= <-]. right. now apply float_add_raises in E.
Qed.

Lemma aggregate_counted (logs : list value) :
  forall d, Forall counted d ->
    match aggregate logs d with
    | Ret d' => Forall counted d'
    | Raise e => aggregation_error e
    end.
Proof.
  induction logs as [|v rest IH]; intros d Hd; [assumption|].
  cbn [aggregate]. pose proof (aggregate_log_counted d v Hd) as H.
  destruct (aggregate_log d v); cbn [obind]; [now apply IH|assumption].
Qed.

Lemma item_lt_raises (a b : value * stats) (e : exn) :
  item_lt a b = Raise e -> e = TypeError.
Proof.
  unfold item_lt, py_lt. destruct (key_eqb (fst a) (fst b)).
  - destruct (stats_eqb (snd a) (snd b)); [discriminate|now intros [= <-]].
  - destruct (fst a), (fst b); try discriminate;
      cbn; try (now intros [= <-]);
      repeat match goal with
             | |- context [match ?x with _ => _ end] => destruct x
             end; try discriminate; now intros [= <-].
Qed.

Lemma insert_item_counted (x : value * stats) (l : stats_dict) :
  counted x -> Forall counted l ->
  match insert_item x l with
  | Ret l' => Forall counted l'
  | Raise e => e = TypeError
  end.
Proof.
  intros Hx. induction 1 as [|y rest Hy Hrest IH]; cbn [insert_item].
  - now repeat constructor.
  - destruct (item_lt x y) as [b|e] eqn:E; cbn [obind].
    + destruct b; [now repeat constructor|].
      destruct (insert_item x rest); cbn [obind]; [now constructor|assumption].
    + now apply item_lt_raises in E.
Qed.

Lemma sorted_counted (d : stats_dict) :
  Forall counted d ->
  match sorted d with
  | Ret items => Forall counted items
  | Raise e => e = TypeError
  end.
Proof.
  induction 1 as [|x rest Hx Hrest IH]; cbn [sorted]; [constructor|].
  destruct (sorted rest); cbn [obind]; [|assumption].
  now apply insert_item_counted.
Qed.

Lemma make_rows_counted (items : stats_dict) :
  Forall counted items ->
  match make_rows items with
  | Ret _ => True
  | Raise e => e = OverflowError
  end.
Proof.
  induction 1 as [|[k st] rest Hk Hrest IH]; cbn [make_rows]; [exact I|].
  unfold float_truediv_int.
  destruct (float_of_int (count st)) eqn:E; cbn [obind].
  - unfold counted in Hk. cbn [snd] in Hk.
    destruct (Z.eqb_spec (count st) 0); [lia|]. cbn [obind].
    destruct (make_rows rest); cbn [obind]; [exact I|assumption].
  - now apply float_of_int_raises in E.
Qed.

(** X17.  Whatever the store holds, [generate_average_report] ends with
    its rows or with one of three exceptions: [AttributeError] (a value
    that is no dict), [TypeError] (a url that cannot be hashed or
    compared, a response time that is no number) or [OverflowError] (an
    integer beyond the doubles).  It never divides by zero: every entry
    of the dictionary has been counted once at least. *)
Theorem X17_aggregation_never_divides_by_zero (logs : list value) (e : exn) :
  generate_average_report logs = Raise e ->
  aggregation_error e /\ e <> ZeroDivisionError.
Proof.
  intros H.
  assert (Herr : aggregation_error e).
  { unfold generate_average_report in H.
    pose proof (aggregate_counted logs [] (Forall_nil _)) as Ha.
    destruct (aggregate logs []) as [d|e1]; cbn [obind] in H;
      [|now injection H as <-].
    pose proof (sorted_counted d Ha) as Hs.
    destruct (sorted d) as [items|e2]; cbn [obind] in H;
      [|injection H as <-; right; now left].
    pose proof (make_rows_counted items Hs) as Hm. rewrite H in Hm.
    right. now right. }
  split; [assumption|].
  destruct Herr as [-> | [-> | ->]]; discriminate.
Qed.

Lemma X17_aggregation_never_divides_by_zero_witness :
  aggregation_error TypeError /\ TypeError <> ZeroDivisionError.
Proof.
  apply (X17_aggregation_never_divides_by_zero
           [VDict [("url", VInt 7); ("response_time", VInt 1)];
            VDict [("url", VStr "/a"); ("response_time", VInt 1)]]).
  vm_compute. reflexivity.
Defined.

Lemma aggregate_app (l1 l2 : list value) :
  forall d,
    aggregate (l1 ++ l2) d = (d' <- aggregate l1 d ;; aggregate l2 d').
Proof.
  induction l1 as [|v rest IH]; intros d; [reflexivity|].
  cbn [app aggregate]. destruct (aggregate_log d v); cbn [obind];
    [apply IH|reflexivity].
Qed.

(** X18.  A value of the store that is no dict (the line [5], a list, a
    string: what a load without date filter keeps of a JSON line that is
    no object) makes the report fail: after well-formed records,
    [generate_average_report] raises [AttributeError] at that value, and
    so does [generate_report] on [average], whatever follows. *)
Theorem X18_non_dict_value_breaks_the_report
    (L : pylib) (rs : list record) (v : value) (rest : list value) :
  Forall (fun r => well_formed_record r = true) rs ->
  (forall d, v <> VDict d) ->
  generate_average_report (store_of rs ++ v :: rest) = Raise AttributeError
  /\ generate_report L (store_of rs ++ v :: rest) "average"
     = Raise AttributeError.
Proof.
  intros Hwf Hv.
  assert (E : generate_average_report (store_of rs ++ v :: rest)
              = Raise AttributeError).
  { unfold generate_average_report.
    rewrite aggregate_app, aggregate_steps by assumption.
    cbn [obind aggregate]. unfold aggregate_log.
    destruct v; try reflexivity. now elim (Hv d). }
  split; [exact E|]. rewrite generate_report_average. now rewrite E.
Qed.

Lemma X18_non_dict_value_breaks_the_report_witness :
  generate_report PyRef.lib
    (store_of [record_of "/a" (VInt 1)] ++ [VInt 5; PyRef.record_june_22])
    "average"
  = Raise AttributeError.
Proof.
  apply (X18_non_dict_value_breaks_the_report PyRef.lib).
  - repeat constructor.
  - discriminate.
Defined.

(** Two records whose url is the NaN of [json.loads] make one row: the
    dict finds the key again by identity. *)
Example nan_urls_share_one_row :
  generate_average_report
    [VDict [("url", VFloat S754_nan); ("response_time", VInt 1)];
     VDict [("url", VFloat S754_nan); ("response_time", VInt 3)]]
  = Ret [mkrow (VFloat S754_nan) 2 "2.000"].
Proof. vm_compute. reflexivity. Qed.
